(** * cell2fate: posterior export, normalisation, velocity and QC

    A shallow embedding of [Cell2fateModel] from
    [src/cell2fate/_cell2fate_multiLineage_model_2.py]: the methods
    [_export2adata], [normalize], [export_posterior] and [plot_QC], over a
    model of the NumPy arrays they compute with.

    Numbers are IEEE 754 binary64 values (Rocq's primitive floats, the
    format of a NumPy [float64]); arrays are a shape with a row-major
    buffer; Python dictionaries are finite maps with string keys; Python
    exceptions are values of an error type, and the methods run in a state
    and error monad over the objects they mutate. *)

From Stdlib Require Import ZArith Lia Floats.
From stdpp Require Import base option list gmap strings.

Set Default Proof Using "Type".

(** ** Python exceptions *)

Inductive exn : Type :=
  | KeyError (key : string)
  | IndexError
  | ValueError
  | RuntimeError (msg : string)
  | AttributeError (name : string)
  | ExternalError (origin : string).

Inductive Err (A : Type) : Type :=
  | Ok (a : A)
  | Raise (e : exn).
Arguments Ok {A} a.
Arguments Raise {A} e.

Definition ebind {A B} (m : Err A) (k : A → Err B) : Err B :=
  match m with
  | Ok a => k a
  | Raise e => Raise e
  end.

Declare Scope err_scope.
Delimit Scope err_scope with err.
Notation "'let?' x := m 'in' k" := (ebind m (fun x => k))
  (at level 10, x pattern, m at level 100, k at level 200) : err_scope.
Local Open Scope err_scope.

(** [d[k]] on a dictionary. *)
Definition getitem {A} (d : gmap string A) (k : string) : Err A :=
  match d !! k with
  | Some v => Ok v
  | None => Raise (KeyError k)
  end.

(** ** N-dimensional arrays *)

Module Nd.

Record ndarray : Type := NdArray { shape : list nat; data : list float }.

Definition ndim (a : ndarray) : nat := length (shape a).

(** Number of entries of an array of shape [sh]. *)
Definition size_of (sh : list nat) : nat := foldr Nat.mul 1 sh.

(** Row-major (C order) offset of a multi-index. *)
Fixpoint ravel (sh idx : list nat) : nat :=
  match sh, idx with
  | _ :: sh', i :: idx' => i * size_of sh' + ravel sh' idx'
  | _, _ => 0
  end.

(** All multi-indices of a shape, in row-major order. *)
Fixpoint indices (sh : list nat) : list (list nat) :=
  match sh with
  | [] => [[]]
  | d :: sh' => flat_map (fun i => cons i <$> indices sh') (seq 0 d)
  end.

Definition in_bounds (sh idx : list nat) : Prop := Forall2 lt idx sh.

(** The entry at a multi-index (the buffer read of [a[i, j, ...]]). *)
Definition get (a : ndarray) (idx : list nat) : float :=
  default 0%float (data a !! ravel (shape a) idx).

(** The array of shape [sh] whose entry at [idx] is [f idx]. *)
Definition tabulate (sh : list nat) (f : list nat → float) : ndarray :=
  NdArray sh (f <$> indices sh).

Definition well_formed (a : ndarray) : Prop :=
  length (data a) = size_of (shape a).

(** A zero-dimensional array (a NumPy scalar). *)
Definition scalar (x : float) : ndarray := NdArray [] [x].

(** *** Indexing *)

(** Integer index [k] on axis [ax], every other axis taken whole. NumPy
    raises [IndexError] when the array has no such axis (too many indices)
    and when [k] is out of bounds for it. *)
Definition take_axis (ax k : nat) (a : ndarray) : Err ndarray :=
  match shape a !! ax with
  | None => Raise IndexError
  | Some d =>
      if decide (k < d)
      then Ok (tabulate (delete ax (shape a))
                 (λ idx, get a (take ax idx ++ k :: drop ax idx)))
      else Raise IndexError
  end.

(** [a[..., k]]: index [k] on the last axis. *)
Definition index_last (k : nat) (a : ndarray) : Err ndarray :=
  take_axis (ndim a - 1) k a.

(** [a[:, :, k]]: index [k] on the third axis. *)
Definition index_third (k : nat) (a : ndarray) : Err ndarray :=
  take_axis 2 k a.

(** [a[0, :, :]]: three indices, so at least three axes. *)
Definition index_first0 (a : ndarray) : Err ndarray :=
  if decide (ndim a < 3) then Raise IndexError else take_axis 0 0 a.

(** [a[ind, :]] for [ind] either [None] or an array of row numbers. With
    [None] NumPy reads [np.newaxis]: a new leading axis of length one and the
    whole first axis. With row numbers, the rows are gathered in order. *)
Definition index_rows (ind : option (list nat)) (a : ndarray) : Err ndarray :=
  match ind with
  | None =>
      match shape a with
      | [] => Raise IndexError
      | _ :: _ => Ok (NdArray (1 :: shape a) (data a))
      end
  | Some rows =>
      match shape a with
      | d :: (_ :: _) as sh' =>
          if decide (Forall (λ r, r < d) rows)
          then Ok (tabulate (length rows :: sh')
                     (λ idx, match idx with
                             | i :: rest => get a (default 0 (rows !! i) :: rest)
                             | [] => 0%float
                             end))
          else Raise IndexError
      | _ => Raise IndexError
      end
  end.

(** [a.flatten()]: a one-dimensional copy in row-major order. *)
Definition flatten (a : ndarray) : ndarray :=
  NdArray [length (data a)] (data a).

(** *** Broadcasting *)

(** Shapes are aligned on their last axis; two lengths agree when they are
    equal or one of them is 1. The lists are the reversed shapes. *)
Fixpoint bshape_rev (s1 s2 : list nat) : option (list nat) :=
  match s1, s2 with
  | [], s | s, [] => Some s
  | d1 :: r1, d2 :: r2 =>
      match bshape_rev r1 r2 with
      | None => None
      | Some r =>
          if decide (d1 = d2) then Some (d1 :: r)
          else if decide (d1 = 1) then Some (d2 :: r)
          else if decide (d2 = 1) then Some (d1 :: r)
          else None
      end
  end.

Definition broadcast_shapes (s1 s2 : list nat) : option (list nat) :=
  reverse <$> bshape_rev (reverse s1) (reverse s2).

(** The index into an operand of shape [sh] for the result index [idx]:
    the trailing axes, with 0 on the axes of length 1 that are stretched. *)
Definition bidx (sh idx : list nat) : list nat :=
  zip_with (λ d i, if decide (d = 1) then 0 else i)
           sh (drop (length idx - length sh) idx).

(** An elementwise binary operator: [ValueError] when the operands cannot
    be broadcast together. *)
Definition broadcast2 (op : float → float → float) (a b : ndarray)
  : Err ndarray :=
  match broadcast_shapes (shape a) (shape b) with
  | None => Raise ValueError
  | Some sh =>
      Ok (tabulate sh (λ idx, op (get a (bidx (shape a) idx))
                                 (get b (bidx (shape b) idx))))
  end.

Definition mul := broadcast2 PrimFloat.mul.
Definition add := broadcast2 PrimFloat.add.
Definition sub := broadcast2 PrimFloat.sub.
Definition div := broadcast2 PrimFloat.div.

Definition map1 (f : float → float) (a : ndarray) : ndarray :=
  NdArray (shape a) (f <$> data a).

(** [a ** 2]: NumPy computes a power with exponent 2 as the square
    [x * x]. *)
Definition fsquare (x : float) : float := PrimFloat.mul x x.
Definition square : ndarray → ndarray := map1 fsquare.

(** [np.sqrt(a)]. *)
Definition sqrt : ndarray → ndarray := map1 PrimFloat.sqrt.

(** *** Reductions and products *)

(** The binary minimum of NumPy's reduction loop: a NaN on either side is
    returned. *)
Definition np_minimum (a b : float) : float :=
  if PrimFloat.is_nan a then a else if PrimFloat.ltb a b then a else b.

(** [a.min()]: the minimum over all entries; [ValueError] for an array with
    no entry. *)
Definition amin (a : ndarray) : Err float :=
  match data a with
  | [] => Raise ValueError
  | x :: l => Ok (foldl np_minimum x l)
  end.

(** [np.dot(a, b)] for a two-dimensional [a] and a [b] with at least two
    axes: the sum of products over the last axis of [a] and the
    second-to-last axis of [b], accumulated in index order. *)
Definition dot (a b : ndarray) : Err ndarray :=
  match shape a with
  | [n; k] =>
      let pre := take (ndim b - 2) (shape b) in
      match drop (ndim b - 2) (shape b) with
      | [k'; m] =>
          if decide (k = k')
          then Ok (tabulate (n :: pre ++ [m])
                     (λ idx, match idx with
                             | i :: rest =>
                                 let p := take (length rest - 1) rest in
                                 let j := default 0 (last rest) in
                                 foldl (λ acc l,
                                          PrimFloat.add acc
                                            (PrimFloat.mul (get a [i; l])
                                                           (get b (p ++ [l; j]))))
                                       0%float (seq 0 k)
                             | [] => 0%float
                             end))
          else Raise ValueError
      | _ => Raise ValueError
      end
  | _ => Raise ValueError
  end.

(** [pd.get_dummies(codes)]: one indicator column per distinct code, the
    columns in increasing order of the code. *)
Definition categories (codes : list nat) : list nat :=
  filter (λ v, v ∈ codes) (seq 0 (S (max_list codes))).

Definition get_dummies (codes : list nat) : ndarray :=
  let cats := categories codes in
  tabulate [length codes; length cats]
    (λ idx, match idx with
            | [c; j] => if decide (codes !! c = cats !! j) then 1%float
                        else 0%float
            | _ => 0%float
            end).

End Nd.

Import Nd.

(** ** The Python values of the model *)

(** A posterior summary maps a parameter name to its array; the sampler's
    result maps ["post_sample_means"], ["post_sample_stds"],
    ["post_sample_q05"], ["post_sample_q95"] and, when raw samples are
    kept, ["posterior_samples"] to such mappings. *)
Abbreviation summary := (gmap string ndarray).
Abbreviation samples_dict := (gmap string (gmap string ndarray)).

(** Values of the keyword arguments forwarded to the sampler. *)
Inductive kwval : Type :=
  | KBool (b : bool)
  | KInt (z : Z).

Definition truthy (v : kwval) : bool :=
  match v with
  | KBool b => b
  | KInt z => negb (z =? 0)%Z
  end.

(** The [sample_kwargs] argument: [None], a dictionary, or another object. *)
Inductive pyarg : Type :=
  | ArgNone
  | ArgDict (d : gmap string kwval)
  | ArgOther.

(** Values stored in the record built by [_export2adata]. *)
Inductive rec_value : Type :=
  | RStr (s : string)
  | RNames (l : list string)
  | RSummary (m : summary).

(** Values stored in [adata.uns]. *)
Inductive uns_value : Type :=
  | UDict (d : gmap string rec_value)
  | UArray (a : ndarray).

(** The annotated data object: names of cells and genes, per-cell and
    per-gene columns, unstructured entries and layers. Assignments to its
    slots are plain dictionary stores: the embedding covers the assignments
    the container accepts, a column with one entry per cell (per gene) and a
    layer of cells by genes. The container's own rejection of another length
    or shape is not part of it. *)
Record AnnData : Type := mkAnnData {
  obs_names : list string;
  var_names : list string;
  obs : gmap string ndarray;
  var : gmap string ndarray;
  uns : gmap string uns_value;
  layers : gmap string ndarray
}.

Definition n_obs (a : AnnData) : nat := length (obs_names a).
Definition n_vars (a : AnnData) : nat := length (var_names a).

Definition set_obs (k : string) (v : ndarray) (a : AnnData) : AnnData :=
  mkAnnData (obs_names a) (var_names a) (<[k := v]> (obs a)) (var a)
            (uns a) (layers a).
Definition set_var (k : string) (v : ndarray) (a : AnnData) : AnnData :=
  mkAnnData (obs_names a) (var_names a) (obs a) (<[k := v]> (var a))
            (uns a) (layers a).
Definition set_uns (k : string) (v : uns_value) (a : AnnData) : AnnData :=
  mkAnnData (obs_names a) (var_names a) (obs a) (var a)
            (<[k := v]> (uns a)) (layers a).
Definition set_layer (k : string) (v : ndarray) (a : AnnData) : AnnData :=
  mkAnnData (obs_names a) (var_names a) (obs a) (var a) (uns a)
            (<[k := v]> (layers a)).

(** What [adata_manager.get_from_registry] serves: the two count layers as
    dense cells-by-genes arrays and the batch code of every cell. *)
Record Registry : Type := mkRegistry {
  unspliced : ndarray;
  spliced : ndarray;
  batch : list nat
}.

(** The attributes of the model that the methods only read: the class name
    of [self.module], [self.adata] (read for its names and [n_obs]) and
    [self.adata_manager]. *)
Record Model : Type := mkModel {
  module_class_name : string;
  self_adata : AnnData;
  adata_manager : Registry
}.

(** Lines written by [print]. *)
Inductive message : Type :=
  | WarnSavingAllSamples
  | WarnSavingVelocityPosterior
  | MsgComputingNormalized.

(** The calls and outputs of a run, in order. *)
Inductive event : Type :=
  | SamplePosterior (kwargs : gmap string kwval)
  | RandomChoice (a : nat) (size : Z)
  | ComputeExpected (s : summary) (ind_x : option (list nat))
  | Print (m : message)
  | PlotMuVsData (mu observed : ndarray)
  | Title (t : string).

(** ** The store *)

Section Store.

(** The state of the random sources. *)
Context {G : Type}.

(** What a call can change: the attributes [self.samples] and
    [self.expected_nb_param] (absent until assigned), the data object passed
    to [export_posterior], the random sources and the trace; and the date
    [date.today()] reads. An attribute [self.samples] that is bound holds a
    samples dictionary, as after the assignment of line 234; the store has
    no other value for it. *)
Record world : Type := mkWorld {
  self_samples : option samples_dict;
  self_expected_nb_param : option summary;
  adata : AnnData;
  today : string;
  entropy : G;
  trace : list event
}.

Definition with_samples (s : samples_dict) (w : world) : world :=
  mkWorld (Some s) (self_expected_nb_param w) (adata w) (today w)
          (entropy w) (trace w).
Definition with_expected (p : summary) (w : world) : world :=
  mkWorld (self_samples w) (Some p) (adata w) (today w) (entropy w) (trace w).
Definition with_adata (f : AnnData → AnnData) (w : world) : world :=
  mkWorld (self_samples w) (self_expected_nb_param w) (f (adata w)) (today w)
          (entropy w) (trace w).
Definition with_entropy (g : G) (w : world) : world :=
  mkWorld (self_samples w) (self_expected_nb_param w) (adata w) (today w)
          g (trace w).
Definition with_event (e : event) (w : world) : world :=
  mkWorld (self_samples w) (self_expected_nb_param w) (adata w) (today w)
          (entropy w) (trace w ++ [e]).

(** A computation returns or raises, and leaves the store as it is at that
    point: what was assigned before an exception stays assigned. *)
Definition M (A : Type) : Type := world → Err A * world.

Definition ret {A} (a : A) : M A := λ w, (Ok a, w).
Definition raise {A} (e : exn) : M A := λ w, (Raise e, w).
Definition bind {A B} (m : M A) (k : A → M B) : M B :=
  λ w, match m w with
       | (Ok a, w') => k a w'
       | (Raise e, w') => (Raise e, w')
       end.
Definition lift {A} (m : Err A) : M A := λ w, (m, w).
Definition gets {A} (f : world → A) : M A := λ w, (Ok (f w), w).
Definition modify (f : world → world) : M unit := λ w, (Ok tt, f w).
Definition emit (e : event) : M unit := modify (with_event e).

End Store.

Arguments world : clear implicits.
Arguments M : clear implicits.

Declare Scope m_scope.
Delimit Scope m_scope with M.
Notation "'let!' x := m 'in' k" := (bind m (fun x => k))
  (at level 10, x pattern, m at level 100, k at level 200) : m_scope.
Notation "m ;; k" := (bind m (fun _ => k))
  (at level 100, k at level 200, right associativity) : m_scope.

(** ** The methods of [Cell2fateModel] *)

Local Open Scope string_scope.
Local Open Scope m_scope.

(** [d[k1][k2]]. *)
Definition item2 (d : samples_dict) (k1 k2 : string) : Err ndarray :=
  let? d1 := getitem d k1 in getitem d1 k2.

(** The right-hand side of the assignment to [adata.layers['velocity']]
    (lines 262 to 264), in Python's order of evaluation. *)
Definition velocity_rhs (smp : samples_dict) : Err ndarray :=
  let? b := item2 smp "post_sample_means" "beta_g" in
  let? b0 := index_last 0 b in
  let? mu := item2 smp "post_sample_means" "mu_RNAvelocity" in
  let? mu0 := index_third 0 mu in
  let? t1 := Nd.mul b0 mu0 in
  let? g := item2 smp "post_sample_means" "gamma_g" in
  let? g0 := index_last 0 g in
  let? mu' := item2 smp "post_sample_means" "mu_RNAvelocity" in
  let? mu1 := index_third 1 mu' in
  let? t2 := Nd.mul g0 mu1 in
  Nd.sub t1 t2.

(** [(m[k][sel]**2 + s[k][sel]**2)] for the means [m] and the standard
    deviations [s]: the second moment of one factor. *)
Definition second_moment (smp : samples_dict) (k : string)
    (sel : ndarray → Err ndarray) : Err ndarray :=
  let? m := item2 smp "post_sample_means" k in
  let? m0 := sel m in
  let? s := item2 smp "post_sample_stds" k in
  let? s0 := sel s in
  Nd.add (square m0) (square s0).

(** [m[k][sel]**2]. *)
Definition squared_mean (smp : samples_dict) (k : string)
    (sel : ndarray → Err ndarray) : Err ndarray :=
  let? m := item2 smp "post_sample_means" k in
  let? m0 := sel m in
  Ok (square m0).

(** The right-hand side of the assignment to [adata.layers['velocity_sd']]
    (lines 265 to 276): [np.sqrt(A*B - C + D*E - F)], read
    [((A*B - C) + D*E) - F]. *)
Definition velocity_sd_rhs (smp : samples_dict) : Err ndarray :=
  let? A := second_moment smp "beta_g" (index_last 0) in
  let? B := second_moment smp "mu_RNAvelocity" (index_third 0) in
  let? AB := Nd.mul A B in
  let? cb := squared_mean smp "beta_g" (index_last 0) in
  let? cm := squared_mean smp "mu_RNAvelocity" (index_third 0) in
  let? C := Nd.mul cb cm in
  let? ABC := Nd.sub AB C in
  let? D := second_moment smp "gamma_g" (index_last 0) in
  let? E := second_moment smp "mu_RNAvelocity" (index_third 1) in
  let? DE := Nd.mul D E in
  let? ABCDE := Nd.add ABC DE in
  let? fg := squared_mean smp "gamma_g" (index_last 0) in
  let? fm := squared_mean smp "mu_RNAvelocity" (index_third 1) in
  let? F := Nd.mul fg fm in
  let? r := Nd.sub ABCDE F in
  Ok (Nd.sqrt r).

(** The right-hand side of the assignment to
    [adata.uns['velocity_posterior']] (lines 280 to 282). *)
Definition velocity_posterior_rhs (smp : samples_dict) : Err ndarray :=
  let? b := item2 smp "posterior_samples" "beta_g" in
  let? b0 := index_last 0 b in
  let? mu := item2 smp "posterior_samples" "mu_RNAvelocity" in
  let? mu0 := index_last 0 mu in
  let? t1 := Nd.mul b0 mu0 in
  let? g := item2 smp "posterior_samples" "gamma_g" in
  let? g0 := index_last 0 g in
  let? mu' := item2 smp "posterior_samples" "mu_RNAvelocity" in
  let? mu1 := index_last 1 mu' in
  let? t2 := Nd.mul g0 mu1 in
  Nd.sub t1 t2.

(** One modality of [normalize] before the shift (lines 183 and 185):
    [counts / samples[det][0,:,:] - np.dot(obs2sample,
    samples["s_g_gene_add"][:,:,k])]. *)
Definition corrected (counts : ndarray) (obs2sample : ndarray)
    (samples : summary) (det : string) (k : nat) : Err ndarray :=
  let? d := getitem samples det in
  let? d0 := index_first0 d in
  let? q := Nd.div counts d0 in
  let? sg := getitem samples "s_g_gene_add" in
  let? sgk := index_third k sg in
  let? bg := Nd.dot obs2sample sgk in
  Nd.sub q bg.

(** [x - x.min()] (lines 184 and 186). *)
Definition shift_to_zero (x : ndarray) : Err ndarray :=
  let? m := amin x in
  Nd.sub x (scalar m).

(** Line 230: [sample_kwargs if isinstance(sample_kwargs, dict) else
    dict()]. *)
Definition kwargs_of (sample_kwargs : pyarg) : gmap string kwval :=
  match sample_kwargs with
  | ArgDict d => d
  | ArgNone | ArgOther => ∅
  end.

Section Methods.

Context {G : Type}.

(** The posterior sampler [self.sample_posterior] of the inference engine,
    called with the keyword arguments: it consumes randomness, and returns
    the samples dictionary or fails. *)
Variable sample_posterior : gmap string kwval → G → option samples_dict * G.

(** [np.random.choice(a, size, replace=False)] for [size <= a]. *)
Variable random_choice : nat → nat → G → list nat * G.

(** The forward map [self.module.model.compute_expected]. *)
Variable compute_expected :
  summary → Registry → option (list nat) → option summary.

Abbreviation M := (M G).

(** Reading the attribute [self.samples]. *)
Definition attr_samples : M samples_dict :=
  let! s := gets self_samples in
  match s with
  | Some s => ret s
  | None => raise (AttributeError "samples")
  end.

Definition attr_expected_nb_param : M summary :=
  let! s := gets self_expected_nb_param in
  match s with
  | Some s => ret s
  | None => raise (AttributeError "expected_nb_param")
  end.

Definition call_sample_posterior (kwargs : gmap string kwval)
  : M samples_dict :=
  emit (SamplePosterior kwargs) ;;
  λ w, match sample_posterior kwargs (entropy w) with
       | (Some s, g) => (Ok s, with_entropy g w)
       | (None, g) => (Raise (ExternalError "sample_posterior"),
                       with_entropy g w)
       end.

Definition call_compute_expected (s : summary) (r : Registry)
    (ind_x : option (list nat)) : M summary :=
  emit (ComputeExpected s ind_x) ;;
  match compute_expected s r ind_x with
  | Some p => ret p
  | None => raise (ExternalError "compute_expected")
  end.

(** [np.random.choice(a, size, replace=False)] for a size in the range of
    a signed 64-bit integer: NumPy rejects a negative size and a size larger
    than the population. *)
Definition np_random_choice (a : nat) (size : Z) : M (list nat) :=
  emit (RandomChoice a size) ;;
  if decide (size < 0)%Z then raise ValueError
  else if decide (Z.of_nat a < size)%Z then raise ValueError
  else λ w, let '(l, g) := random_choice a (Z.to_nat size) (entropy w) in
            (Ok l, with_entropy g w).

(** Lines 139 to 164. *)
Definition _export2adata (self : Model) (samples : samples_dict)
  : M (gmap string rec_value) :=
  let model_name := module_class_name self in
  let! date := gets today in
  let var_names := var_names (self_adata self) in
  let obs_names := obs_names (self_adata self) in
  let! means := lift (getitem samples "post_sample_means") in
  let! stds := lift (getitem samples "post_sample_stds") in
  let! q05 := lift (getitem samples "post_sample_q05") in
  let! q95 := lift (getitem samples "post_sample_q95") in
  ret (<["model_name" := RStr model_name]>
       (<["date" := RStr date]>
       (<["var_names" := RNames var_names]>
       (<["obs_names" := RNames obs_names]>
       (<["post_sample_means" := RSummary means]>
       (<["post_sample_stds" := RSummary stds]>
       (<["post_sample_q05" := RSummary q05]>
       (<["post_sample_q95" := RSummary q95]> ∅)))))))).

(** Lines 166 to 188: the result is written to the data object of the
    store. *)
Definition normalize (samples : summary) (adata_manager : Registry)
  : M unit :=
  let obs2sample := get_dummies (batch adata_manager) in
  let! unspliced_corrected :=
    lift (corrected (unspliced adata_manager) obs2sample samples
                    "detection_y_cu" 0) in
  let! u := lift (shift_to_zero unspliced_corrected) in
  modify (with_adata (set_layer "unspliced_norm" u)) ;;
  let! spliced_corrected :=
    lift (corrected (spliced adata_manager) obs2sample samples
                    "detection_y_cs" 1) in
  let! s := lift (shift_to_zero spliced_corrected) in
  modify (with_adata (set_layer "spliced_norm" s)).

(** [target[col] = self.samples[k1][k2].flatten()] (lines 244 to 260). *)
Definition export_column (set : string → ndarray → AnnData → AnnData)
    (col k1 k2 : string) : M unit :=
  let! smp := attr_samples in
  let! a := lift (item2 smp k1 k2) in
  modify (with_adata (set col (flatten a))).

(** [adata.uns[export_slot]['post_samples'] = v] (line 242). *)
Definition store_post_samples (export_slot : string) (v : summary)
  : M unit :=
  let! u := gets (λ w, uns (adata w)) in
  let! slot := lift (getitem u export_slot) in
  match slot with
  | UDict d =>
      modify (with_adata
                (set_uns export_slot
                         (UDict (<["post_samples" := RSummary v]> d))))
  | UArray _ => raise IndexError
  end.

(** Lines 190 to 288. *)
Definition export_posterior (self : Model) (sample_kwargs : pyarg)
    (export_slot : string) (full_velocity_posterior normalize_ : bool)
  : M AnnData :=
  let sample_kwargs := kwargs_of sample_kwargs in
  let! s := call_sample_posterior sample_kwargs in
  modify (with_samples s) ;;
  let! smp := attr_samples in
  let! results := _export2adata self smp in
  modify (with_adata (set_uns export_slot (UDict results))) ;;
  let! rs := lift (getitem sample_kwargs "return_samples") in
  (if truthy rs then
     emit (Print WarnSavingAllSamples) ;;
     let! smp := attr_samples in
     let! ps := lift (getitem smp "posterior_samples") in
     store_post_samples export_slot ps
   else ret tt) ;;
  export_column set_obs "latent_time_mean" "post_sample_means" "T_c" ;;
  export_column set_obs "latent_time_sd" "post_sample_stds" "T_c" ;;
  export_column set_obs "normalization_factor_unspliced_mean"
                "post_sample_means" "detection_y_cu" ;;
  export_column set_obs "normalization_factor_unspliced_sd"
                "post_sample_stds" "detection_y_cu" ;;
  export_column set_obs "normalization_factor_spliced_mean"
                "post_sample_means" "detection_y_cs" ;;
  export_column set_obs "normalization_factor_spliced_sd"
                "post_sample_stds" "detection_y_cs" ;;
  export_column set_var "transcription_rate_mean"
                "post_sample_means" "alpha_g" ;;
  export_column set_var "transcription_rate_sd"
                "post_sample_stds" "alpha_g" ;;
  export_column set_var "splicing_rate_mean" "post_sample_means" "beta_g" ;;
  export_column set_var "splicing_rate_sd" "post_sample_stds" "beta_g" ;;
  export_column set_var "degredation_rate_mean"
                "post_sample_means" "gamma_g" ;;
  export_column set_var "degredation_rate_sd" "post_sample_stds" "gamma_g" ;;
  export_column set_var "switchON_time_mean" "post_sample_means" "T_gON" ;;
  export_column set_var "switchON_time_sd" "post_sample_stds" "T_gON" ;;
  export_column set_var "switchOFF_time_mean" "post_sample_means" "T_gOFF" ;;
  export_column set_var "switchOFF_time_sd" "post_sample_stds" "T_gOFF" ;;
  let! smp := attr_samples in
  let! v := lift (velocity_rhs smp) in
  modify (with_adata (set_layer "velocity" v)) ;;
  let! smp := attr_samples in
  let! vsd := lift (velocity_sd_rhs smp) in
  modify (with_adata (set_layer "velocity_sd" vsd)) ;;
  let! rs := lift (getitem sample_kwargs "return_samples") in
  (if truthy rs && full_velocity_posterior then
     emit (Print WarnSavingVelocityPosterior) ;;
     let! smp := attr_samples in
     let! vp := lift (velocity_posterior_rhs smp) in
     modify (with_adata (set_uns "velocity_posterior" (UArray vp)))
   else ret tt) ;;
  (if normalize_ then
     emit (Print MsgComputingNormalized) ;;
     let! smp := attr_samples in
     let! means := lift (getitem smp "post_sample_means") in
     normalize means (adata_manager self)
   else ret tt) ;;
  gets adata.

(** Modelled from the spec: [plot_posterior_mu_vs_data] of the plotting
    mixin (cell2fate._pyro_mixin, not under src/) draws the pair of an
    expected and an observed matrix for their comparison; the embedding
    records the pair. *)
Definition plot_posterior_mu_vs_data (mu observed : ndarray) : M unit :=
  emit (PlotMuVsData mu observed).

(** Modelled from the spec: [multiplot_from_generator] (cell2fate.utils,
    not under src/) consumes the stepped plotting routine to its end, one
    step per subplot; the steps of the generator are the code between its
    [yield]s. *)
Fixpoint multiplot_from_generator (g : list (M unit)) (num_columns : nat)
  : M unit :=
  match g with
  | [] => ret tt
  | step :: g' => step ;; multiplot_from_generator g' num_columns
  end.

(** One step of [generatePlots] (lines 338 to 342 and 344 to 348): the layer
    is read at [ind_x], then compared with component [k] of the expected
    counts. The layers of the registry are dense arrays here, so the
    [issparse] branch is not taken. *)
Definition plot_step (layer : ndarray) (ind_x : option (list nat))
    (k : nat) (title : string) : M unit :=
  let! observed := lift (index_rows ind_x layer) in
  let! p := attr_expected_nb_param in
  let! mu := lift (getitem p "mu") in
  let! mu_k := lift (index_third k mu) in
  plot_posterior_mu_vs_data mu_k observed ;;
  emit (Title title).

Definition generatePlots (self : Model) (ind_x : option (list nat))
  : list (M unit) :=
  [ plot_step (unspliced (adata_manager self)) ind_x 0
              "Reconstruction Accuracy (unspliced)";
    plot_step (spliced (adata_manager self)) ind_x 1
              "Reconstruction Accuracy (spliced)" ].

(** Lines 328 to 331, for [use_n_obs] an integer in the range of a signed
    64-bit integer, where [np.min] of the pair is the smaller integer. *)
Definition draw_ind_x (self : Model) (use_n_obs : option Z)
  : M (option (list nat)) :=
  match use_n_obs with
  | Some n =>
      let! ind := np_random_choice (n_obs (self_adata self))
                    (Z.min n (Z.of_nat (n_obs (self_adata self)))) in
      ret (Some ind)
  | None => ret None
  end.

Definition missing_samples_message : string :=
  "self.samples is missing, please run self.export_posterior() first".

(** Lines 304 to 349. The test [getattr(self, "samples", False) is False]
    of line 326 holds, on this store, exactly when the attribute is
    absent. *)
Definition plot_QC (self : Model) (summary_name : string)
    (use_n_obs : option Z) : M unit :=
  let! cached := gets self_samples in
  (if cached is None
   then raise (RuntimeError missing_samples_message)
   else ret tt) ;;
  let! ind_x := draw_ind_x self use_n_obs in
  let! smp := attr_samples in
  let! s := lift (getitem smp ("post_sample_" +:+ summary_name)) in
  let! p := call_compute_expected s (adata_manager self) ind_x in
  modify (with_expected p) ;;
  multiplot_from_generator (generatePlots self ind_x) 3.

End Methods.

(** ** Vocabulary of the statements *)

(** The call returned: it raised no exception. *)
Definition returned {A} (r : Err A) : Prop :=
  match r with
  | Ok _ => True
  | Raise _ => False
  end.

(** *** Classes of binary64 values, on their specification *)

(** Zero or a finite non-zero number. *)
Definition sf_finite (x : spec_float) : bool :=
  match x with
  | S754_zero _ | S754_finite _ _ _ => true
  | _ => false
  end.

(** Not negative and not NaN. *)
Definition sf_nonneg (x : spec_float) : bool :=
  match x with
  | S754_zero _ | S754_infinity false | S754_finite false _ _ => true
  | _ => false
  end.


(** Not negative: zero, positive or NaN. *)
Definition sf_not_negative (x : spec_float) : bool :=
  match x with S754_nan => true | _ => sf_nonneg x end.

(** *** Cells-by-genes data *)

(** The shapes that broadcast to [C] cells by [G] genes. *)
Definition fits2 (C G : nat) (s : list nat) : Prop :=
  match s with
  | [] => True
  | [d] => d = G ∨ d = 1
  | [d1; d2] => (d1 = C ∨ d1 = 1) ∧ (d2 = G ∨ d2 = 1)
  | _ => False
  end.

(** The entry of [a] that broadcasting pairs with cell [c] and gene [g]. *)
Definition at2 (a : ndarray) (c g : nat) : float :=
  get a (bidx (shape a) [c; g]).

(** An operand of an elementwise operator on cells-by-genes data. *)
Definition operand (C G : nat) (a : ndarray) : Prop :=
  well_formed a ∧ fits2 C G (shape a).

(** *** Per-gene rates *)

(** What the code reads of a rate array ([beta_g], [gamma_g]), for the
    facts on the velocity expressions: the shapes whose slice [[..., 0]]
    broadcasts to [C] cells by [G] genes, any shape that fits followed by a
    last axis that is not empty. In a one-dimensional array the slice is
    the single entry at index 0, whatever the gene. *)
Definition rate_layout (C G : nat) (s : list nat) : Prop :=
  ∃ sh d, s = (sh ++ [d])%list ∧ 0 < d ∧ fits2 C G sh.

(** The entry of [a[..., 0]] that broadcasting pairs with cell [c] and gene
    [g]. *)
Definition rate_at (a : ndarray) (c g : nat) : float :=
  get a (bidx (removelast (shape a)) [c; g] ++ [0])%list.

(** The statements are on the layouts in which a rate array holds one rate
    per gene along a gene axis: genes by components, one by genes by
    components, and a single entry for a single gene. *)
Definition gene_layout (G : nat) (s : list nat) : Prop :=
  (G = 1 ∧ s = [1]) ∨ (∃ d, 0 < d ∧ s = [G; d]) ∨ (∃ d, 0 < d ∧ s = [1; G; d]).

(** The rate of gene [g] in such an array. *)
Definition gene_entry (a : ndarray) (g : nat) : float :=
  match shape a with
  | [_; _] => get a [g; 0]
  | [_; _; _] => get a [0; g; 0]
  | _ => get a [g]
  end.

(** *** The documented velocity uncertainty *)

(** [sqrt((Eb^2 + sb^2)*(Em0^2 + sm0^2) - Eb^2*Em0^2
          + (Eg^2 + sg^2)*(Em1^2 + sm1^2) - Eg^2*Em1^2)], the formula of the
    specification in binary64, a square being the product of the number
    with itself and the sums taken from left to right. *)
Definition documented_velocity_sd
    (Eb sb Em0 sm0 Eg sg Em1 sm1 : float) : float :=
  PrimFloat.sqrt
    ((Eb * Eb + sb * sb) * (Em0 * Em0 + sm0 * sm0)
     - (Eb * Eb) * (Em0 * Em0)
     + (Eg * Eg + sg * sg) * (Em1 * Em1 + sm1 * sm1)
     - (Eg * Eg) * (Em1 * Em1))%float.

(** *** The corrected counts of [normalize] *)

(** The entry of [d[0, :, :]] that broadcasting pairs with cell [c] and gene
    [g]: the detection efficiency of the cell. *)
Definition efficiency_at (d : ndarray) (c g : nat) : float :=
  get d (0 :: bidx (tail (shape d)) [c; g]).

(** The number of batches: of distinct batch codes. *)
Definition batch_count (batch : list nat) : nat :=
  length (remove_dups batch).

(** The batches are numbered in increasing order of their code: the number
    of the batch of code [v] is the number of distinct codes below [v]. *)
Definition batch_number (batch : list nat) (v : nat) : nat :=
  length (remove_dups (filter (λ u, u < v) batch)).

(** The batch indicator: 1 when cell [c] is in batch number [l], else 0. *)
Definition batch_indicator (batch : list nat) (c l : nat) : float :=
  match batch !! c with
  | Some v => if decide (batch_number batch v = l) then 1%float else 0%float
  | None => 0%float
  end.

(** The entry of the product of the batch indicator with component [k] of
    the additive background: the sum over the batches, in their order. *)
Definition background_at (batch : list nat) (sg : ndarray) (k c g : nat)
  : float :=
  foldl (λ acc l, PrimFloat.add acc
                    (PrimFloat.mul (batch_indicator batch c l)
                                   (get sg [l; g; k])))
        0%float (seq 0 (batch_count batch)).

(** [counts / efficiency - indicator . background] at one entry. *)
Definition corrected_entry (counts d : ndarray) (batch : list nat)
    (sg : ndarray) (k c g : nat) : float :=
  PrimFloat.sub (PrimFloat.div (get counts [c; g]) (efficiency_at d c g))
                (background_at batch sg k c g).

(** The shapes of a detection efficiency whose slice [[0, :, :]] broadcasts
    to cells by genes. *)
Definition efficiency_layout (C G : nat) (s : list nat) : Prop :=
  ∃ D x y, s = [D; x; y] ∧ 0 < D ∧ fits2 C G [x; y].




(** *** The outputs of the export and of the record *)

(** The columns of a data object have one entry per cell, or per gene, and
    its layers are cells by genes: what the container accepts. *)
Definition accepted (a : AnnData) : Prop :=
  map_Forall (λ _ col, shape col = [n_obs a]) (obs a) ∧
  map_Forall (λ _ col, shape col = [n_vars a]) (var a) ∧
  map_Forall (λ _ layer, shape layer = [n_obs a; n_vars a]) (layers a).

(** A call of the posterior sampler. *)
Definition is_sample_call (e : event) : bool :=
  match e with SamplePosterior _ => true | _ => false end.

(** The per-cell and per-gene columns of the export (lines 244 to 260): the
    column, and the summary and parameter it is read from. *)
Definition obs_columns : list (string * (string * string)) :=
  [ ("latent_time_mean", ("post_sample_means", "T_c"));
    ("latent_time_sd", ("post_sample_stds", "T_c"));
    ("normalization_factor_unspliced_mean",
     ("post_sample_means", "detection_y_cu"));
    ("normalization_factor_unspliced_sd",
     ("post_sample_stds", "detection_y_cu"));
    ("normalization_factor_spliced_mean",
     ("post_sample_means", "detection_y_cs"));
    ("normalization_factor_spliced_sd",
     ("post_sample_stds", "detection_y_cs")) ].

Definition var_columns : list (string * (string * string)) :=
  [ ("transcription_rate_mean", ("post_sample_means", "alpha_g"));
    ("transcription_rate_sd", ("post_sample_stds", "alpha_g"));
    ("splicing_rate_mean", ("post_sample_means", "beta_g"));
    ("splicing_rate_sd", ("post_sample_stds", "beta_g"));
    ("degredation_rate_mean", ("post_sample_means", "gamma_g"));
    ("degredation_rate_sd", ("post_sample_stds", "gamma_g"));
    ("switchON_time_mean", ("post_sample_means", "T_gON"));
    ("switchON_time_sd", ("post_sample_stds", "T_gON"));
    ("switchOFF_time_mean", ("post_sample_means", "T_gOFF"));
    ("switchOFF_time_sd", ("post_sample_stds", "T_gOFF")) ].

(** The layers an export may assign. *)
Definition export_layers (normalize_ : bool) : list string :=
  "velocity" :: "velocity_sd" ::
  if normalize_ then ["unspliced_norm"; "spliced_norm"] else [].

(** The lines a returning export prints, in order. *)
Definition export_prints (return_samples full_velocity_posterior
    normalize_ : bool) : list event :=
  (if return_samples then [Print WarnSavingAllSamples] else []) ++
  (if return_samples && full_velocity_posterior
   then [Print WarnSavingVelocityPosterior] else []) ++
  (if normalize_ then [Print MsgComputingNormalized] else []).

(** The column holds the array [smp[k1][k2]] flattened: a single axis, as
    long as the array has entries, with the entries in their row-major
    order. *)
Definition column_of (smp : samples_dict) (columns : gmap string ndarray)
    (c : string * (string * string)) : Prop :=
  ∃ a, item2 smp c.2.1 c.2.2 = Ok a ∧
       columns !! c.1 = Some (NdArray [length (data a)] (data a)).

(** The four summaries [_export2adata] copies, in the order it reads them. *)
Definition summary_keys : list string :=
  ["post_sample_means"; "post_sample_stds"; "post_sample_q05";
   "post_sample_q95"].

(** The first of [keys] that [d] does not hold. *)
Definition first_missing {A} (d : gmap string A) (keys : list string)
  : option string :=
  head (filter (λ k, ¬ is_Some (d !! k)) keys).

(** The keys of the record of [_export2adata]. *)
Definition record_keys : list string :=
  ["model_name"; "date"; "var_names"; "obs_names"] ++ summary_keys.

(** ** Concrete inputs *)

Module Examples.

(** The round-trip scenario of the specification: one cell and one gene,
    [beta_g = [2.0]], [gamma_g = [1.0]] and the two components 3.0 and 1.0
    of [mu_RNAvelocity]. *)
Definition cell_param (x : float) : ndarray := NdArray [1; 1; 1] [x].
Definition gene_param (x : float) : ndarray := NdArray [1] [x].

Definition means : summary :=
  <["beta_g" := gene_param 2]>
  (<["gamma_g" := gene_param 1]>
  (<["alpha_g" := gene_param 4]>
  (<["T_gON" := gene_param 0.5]>
  (<["T_gOFF" := gene_param 1.5]>
  (<["T_c" := cell_param 1]>
  (<["detection_y_cu" := cell_param 2]>
  (<["detection_y_cs" := cell_param 4]>
  (<["s_g_gene_add" := NdArray [1; 1; 2] [0.5; 0.25]%float]>
  (<["mu_RNAvelocity" := NdArray [1; 1; 2] [3; 1]%float]> ∅))))))))).

Definition stds : summary :=
  <["beta_g" := gene_param 0.5]>
  (<["gamma_g" := gene_param 1.25]>
  (<["alpha_g" := gene_param 1]>
  (<["T_gON" := gene_param 0.125]>
  (<["T_gOFF" := gene_param 0.125]>
  (<["T_c" := cell_param 0.25]>
  (<["detection_y_cu" := cell_param 0.5]>
  (<["detection_y_cs" := cell_param 0.5]>
  (<["s_g_gene_add" := NdArray [1; 1; 2] [0.125; 0.125]%float]>
  (<["mu_RNAvelocity" := NdArray [1; 1; 2] [2; 2.25]%float]> ∅))))))))).

Definition posterior_of (m s : summary) : samples_dict :=
  <["post_sample_means" := m]>
  (<["post_sample_stds" := s]>
  (<["post_sample_q05" := m]>
  (<["post_sample_q95" := m]> ∅))).

Definition posterior : samples_dict := posterior_of means stds.

Definition data0 : AnnData := mkAnnData ["cell0"] ["gene0"] ∅ ∅ ∅ ∅.

Definition model : Model :=
  mkModel "Cell2FateBaseModule" data0
          (mkRegistry (NdArray [1; 1] [6%float]) (NdArray [1; 1] [8%float]) [0]).

(** A store with no cached samples, and one after a previous export. *)
Definition store0 : world unit := mkWorld None None data0 "2024-05-01" tt [].
Definition store1 : world unit :=
  mkWorld (Some posterior) None data0 "2024-05-01" tt [].

(** A sampler that returns the given samples. *)
Definition sampler (s : samples_dict) (kw : gmap string kwval) (g : unit)
  : option samples_dict * unit := (Some s, g).

(** The first indices, in order: a draw without replacement. *)
Definition first_indices (a k : nat) (g : unit) : list nat * unit :=
  (seq 0 k, g).

(** A forward map whose expected counts are the counts themselves. *)
Definition expected_of (mu : ndarray) (s : summary) (r : Registry)
    (ind : option (list nat)) : option summary :=
  Some (<["mu" := mu]> ∅).

Definition summaries_only : pyarg :=
  ArgDict (<["return_samples" := KBool false]> ∅).

(** One cell and two genes, every per-gene parameter a one-dimensional
    array with one entry per gene: the two genes differ in their rates
    only. *)
Definition gene_params (x y : float) : ndarray := NdArray [2] [x; y].

Definition means_flat : summary :=
  <["beta_g" := gene_params 2 7]>
  (<["gamma_g" := gene_params 1 1]>
  (<["alpha_g" := gene_params 4 4]>
  (<["T_gON" := gene_params 0.5 0.5]>
  (<["T_gOFF" := gene_params 1.5 1.5]>
  (<["T_c" := cell_param 1]>
  (<["detection_y_cu" := cell_param 2]>
  (<["detection_y_cs" := cell_param 4]>
  (<["s_g_gene_add" := NdArray [1; 2; 2] [0.5; 0.25; 0.5; 0.25]%float]>
  (<["mu_RNAvelocity" := NdArray [1; 2; 2] [3; 1; 3; 1]%float]> ∅))))))))).

Definition stds_flat : summary :=
  <["beta_g" := gene_params 0.5 1.125]>
  (<["gamma_g" := gene_params 1.25 6]>
  (<["alpha_g" := gene_params 1 1]>
  (<["T_gON" := gene_params 0.125 0.125]>
  (<["T_gOFF" := gene_params 0.125 0.125]>
  (<["T_c" := cell_param 0.25]>
  (<["detection_y_cu" := cell_param 0.5]>
  (<["detection_y_cs" := cell_param 0.5]>
  (<["s_g_gene_add" :=
       NdArray [1; 2; 2] [0.125; 0.125; 0.125; 0.125]%float]>
  (<["mu_RNAvelocity" := NdArray [1; 2; 2] [2; 2.25; 2; 2.25]%float]>
     ∅))))))))).

Definition posterior_flat : samples_dict := posterior_of means_flat stds_flat.

Definition data_flat : AnnData :=
  mkAnnData ["cell0"] ["gene0"; "gene1"] ∅ ∅ ∅ ∅.

Definition model_flat : Model :=
  mkModel "Cell2FateBaseModule" data_flat
          (mkRegistry (NdArray [1; 2] [6; 8]%float)
                      (NdArray [1; 2] [8; 4]%float) [0]).

Definition store_flat : world unit :=
  mkWorld None None data_flat "2024-05-01" tt [].



(** Five hundred cells and one gene. *)
Definition cells500 : list string := replicate 500 "cell".
Definition counts500 : ndarray := NdArray [500; 1] (replicate 500 1%float).
Definition model500 : Model :=
  mkModel "Cell2FateBaseModule" (mkAnnData cells500 ["gene0"] ∅ ∅ ∅ ∅)
          (mkRegistry counts500 counts500 (replicate 500 0)).

(** Two cells and one gene. *)
Definition counts2 : ndarray := NdArray [2; 1] [6; 8]%float.
Definition model2 : Model :=
  mkModel "Cell2FateBaseModule"
          (mkAnnData ["cell0"; "cell1"] ["gene0"] ∅ ∅ ∅ ∅)
          (mkRegistry counts2 counts2 [0; 0]).




End Examples.

(** ** Further inputs *)

Module Scenarios.

Import Examples.

(** Two posterior draws for one cell and one gene, kept by the sampler
    under ["posterior_samples"]: the rates have an axis of length one for
    the cells. *)
Definition draws : summary :=
  <["beta_g" := NdArray [2; 1; 1; 1] [2; 4]%float]>
  (<["gamma_g" := NdArray [2; 1; 1; 1] [1; 1]%float]>
  (<["mu_RNAvelocity" := NdArray [2; 1; 1; 2] [3; 1; 3; 1]%float]> ∅)).

Definition posterior_all : samples_dict :=
  <["posterior_samples" := draws]> posterior.

Definition all_samples : pyarg :=
  ArgDict (<["return_samples" := KBool true]> ∅).

(** Expected counts for five hundred cells and for two cells, one gene. *)
Definition mu500 : ndarray := NdArray [500; 1; 2] (replicate 1000 1%float).
Definition mu2 : ndarray := NdArray [2; 1; 2] [6; 6; 8; 8]%float.

(** A data set without cells. *)
Definition model_empty : Model :=
  mkModel "Cell2FateBaseModule" (mkAnnData [] ["gene0"] ∅ ∅ ∅ ∅)
          (mkRegistry (NdArray [0; 1] []) (NdArray [0; 1] []) []).

Definition means_empty : summary :=
  <["s_g_gene_add" := NdArray [0; 1; 2] []]> means.

(** Posterior means that lack the detection efficiency of the spliced
    counts. *)
Definition means_unspliced_only : summary := delete "detection_y_cs" means.

End Scenarios.

(** * Facts *)

(** ** Binary64 arithmetic *)

Module FloatFacts.


Local Open Scope Z_scope.




(** Rounding never turns a non-negative mantissa into a negative one. *)
Lemma shr_1_nonneg mrs : 0 <= shr_m mrs → 0 <= shr_m (shr_1 mrs).
Proof.
  destruct mrs as [m r s]. simpl.
  destruct m as [|[p|p|]|[p|p|]]; simpl; lia.
Qed.

Lemma iter_shr_1_nonneg (p : positive) mrs :
  0 <= shr_m mrs → 0 <= shr_m (SpecFloat.iter_pos shr_1 p mrs).
Proof.
  revert mrs. induction p as [p IH|p IH|]; intros mrs H; simpl.
  - apply IH, IH, shr_1_nonneg, H.
  - apply IH, IH, H.
  - apply shr_1_nonneg, H.
Qed.

Lemma shr_nonneg mrs e n : 0 <= shr_m mrs → 0 <= shr_m (fst (shr mrs e n)).
Proof.
  intros H. unfold shr. destruct n; simpl; auto using iter_shr_1_nonneg.
Qed.

Lemma shr_fexp_nonneg prec emax m e l :
  0 <= m → 0 <= shr_m (fst (shr_fexp prec emax m e l)).
Proof.
  intros H. unfold shr_fexp. apply shr_nonneg.
  destruct l as [|[]]; simpl; exact H.
Qed.

Lemma round_nearest_even_nonneg m l : 0 <= m → 0 <= round_nearest_even m l.
Proof.
  intros H. unfold round_nearest_even.
  destruct l as [|[]]; try destruct (Z.even m); lia.
Qed.

Lemma binary_round_aux_nonneg prec emax m e l :
  0 <= m → sf_nonneg (binary_round_aux prec emax false m e l) = true.
Proof.
  intros H. unfold binary_round_aux.
  pose proof (shr_fexp_nonneg prec emax m e l H) as H1.
  destruct (shr_fexp prec emax m e l) as [mrs' e'] eqn:E1. simpl in H1.
  pose proof (shr_fexp_nonneg prec emax
                (round_nearest_even (shr_m mrs') (loc_of_shr_record mrs')) e'
                loc_Exact (round_nearest_even_nonneg _ _ H1)) as H2.
  destruct (shr_fexp prec emax _ e' loc_Exact) as [mrs'' e''] eqn:E2.
  simpl in H2.
  destruct (shr_m mrs'') as [|p|p]; [reflexivity| |lia].
  destruct (e'' <=? emax - prec); reflexivity.
Qed.












(** *** The same facts on primitive floats *)



Lemma is_finite_sf x :
  PrimFloat.is_finite x = true → sf_finite (Prim2SF x) = true.
Proof.
  unfold PrimFloat.is_finite, PrimFloat.is_nan, PrimFloat.is_infinity.
  rewrite !FloatAxioms.eqb_spec, FloatAxioms.abs_spec. unfold SFeqb.
  change (Prim2SF infinity) with (S754_infinity false).
  destruct (Prim2SF x) as [s|s| |s m e]; simpl; try done.
  rewrite orb_true_r. done.
Qed.







End FloatFacts.

(** ** Arrays *)

Module NdFacts.

Local Open Scope list_scope.


Lemma length_indices sh : length (indices sh) = size_of sh.
Proof.
  induction sh as [|d sh IH]; [done|]. simpl.
  generalize 0. induction d as [|d IHd]; intros s; simpl; [done|].
  rewrite length_app, length_fmap, IH, IHd. done.
Qed.

Lemma ravel_lt sh idx : in_bounds sh idx → ravel sh idx < size_of sh.
Proof.
  intros H. induction H as [|i d idx sh Hi H IH]; simpl; [lia|].
  fold (size_of sh). nia.
Qed.

(** In a concatenation of blocks of the same length, position [i * n + r]
    is position [r] of block [i]. *)
Lemma lookup_flat_map_blocks {A B} (f : A → list B) (l : list A) n i r x :
  (∀ y, length (f y) = n) → l !! i = Some x → r < n →
  flat_map f l !! (i * n + r) = f x !! r.
Proof.
  intros Hn. revert i. induction l as [|y l IH]; intros i Hi Hr; [done|].
  simpl. destruct i as [|i]; simpl in *.
  - injection Hi as ->. rewrite lookup_app_l; [done|]. rewrite Hn. lia.
  - rewrite lookup_app_r; rewrite Hn; [|lia].
    replace (n + i * n + r - n) with (i * n + r) by lia. by apply IH.
Qed.

Lemma lookup_indices sh idx :
  in_bounds sh idx → indices sh !! ravel sh idx = Some idx.
Proof.
  intros H. induction H as [|i d idx sh Hi H IH]; [done|].
  simpl. fold (size_of sh).
  rewrite (lookup_flat_map_blocks _ _ (size_of sh) i _ i).
  - by rewrite list_lookup_fmap, IH.
  - intros y. by rewrite length_fmap, length_indices.
  - by apply lookup_seq.
  - by apply ravel_lt.
Qed.

Lemma get_tabulate sh f idx :
  in_bounds sh idx → get (tabulate sh f) idx = f idx.
Proof.
  intros H. unfold get, tabulate. simpl.
  by rewrite list_lookup_fmap, lookup_indices.
Qed.

Lemma tabulate_well_formed sh f : well_formed (tabulate sh f).
Proof. unfold well_formed, tabulate. simpl. by rewrite length_fmap, length_indices. Qed.



Lemma bidx_same sh idx : in_bounds sh idx → bidx sh idx = idx.
Proof.
  intros H. unfold bidx.
  rewrite (Forall2_length _ _ _ H), Nat.sub_diag, drop_0.
  induction H as [|i d idx sh Hi H IH]; simpl; [done|].
  rewrite IH. case_decide; [f_equal; lia|done].
Qed.

Lemma fits2_full C G : fits2 C G [C; G].
Proof. simpl. auto. Qed.

Lemma fits2_in_bounds C G s c g :
  fits2 C G s → c < C → g < G → in_bounds s (bidx s [c; g]).
Proof.
  intros Hs Hc Hg. destruct s as [|d1 [|d2 [|? ?]]]; simpl in Hs; try done.
  - constructor.
  - unfold bidx; simpl. repeat constructor. case_decide; lia.
  - unfold bidx; simpl. repeat constructor; case_decide; lia.
Qed.

Lemma at2_full a C G c g :
  shape a = [C; G] → c < C → g < G → at2 a c g = get a [c; g].
Proof.
  intros Hs Hc Hg. unfold at2. rewrite Hs, bidx_same; [done|].
  repeat constructor; lia.
Qed.

Lemma broadcast_shapes_fits2 C G s1 s2 :
  fits2 C G s1 → fits2 C G s2 →
  ∃ s, broadcast_shapes s1 s2 = Some s ∧ fits2 C G s ∧
       (s1 = [C; G] ∨ s2 = [C; G] → s = [C; G]) ∧
       ∀ c g, c < C → g < G →
         bidx s1 (bidx s [c; g]) = bidx s1 [c; g] ∧
         bidx s2 (bidx s [c; g]) = bidx s2 [c; g].
Proof.
  intros H1 H2.
  destruct s1 as [|a1 [|a2 [|? ?]]]; simpl in H1; try done;
  destruct s2 as [|b1 [|b2 [|? ?]]]; simpl in H2; try done;
  unfold broadcast_shapes; simpl;
  repeat (case_decide; simpl); simplify_eq/=;
  try (eexists; split; [reflexivity|]);
  try lia.
  all: split_and!; simpl; try done; try lia;
    try (intros [?|?]; by simplify_eq); try tauto.
  all: try (intros [?|?]; simplify_eq; f_equal; lia).
  all: intros c g Hc Hg; unfold bidx; cbn; repeat case_decide;
    done || lia || (split; f_equal; lia).
Qed.

Lemma broadcast2_operand op a b C G :
  fits2 C G (shape a) → fits2 C G (shape b) →
  ∃ r, broadcast2 op a b = Ok r ∧ operand C G r ∧
       (shape a = [C; G] ∨ shape b = [C; G] → shape r = [C; G]) ∧
       ∀ c g, c < C → g < G → at2 r c g = op (at2 a c g) (at2 b c g).
Proof.
  intros Ha Hb.
  destruct (broadcast_shapes_fits2 C G _ _ Ha Hb) as (s & Hs & Hfit & Hfull & Hidx).
  unfold broadcast2. rewrite Hs. eexists. split; [reflexivity|].
  split; [split; [apply tabulate_well_formed|exact Hfit]|].
  split; [exact Hfull|].
  intros c g Hc Hg. unfold at2 at 1. simpl.
  rewrite get_tabulate by (by apply (fits2_in_bounds C G)).
  destruct (Hidx c g Hc Hg) as [-> ->]. done.
Qed.

Lemma get_map1 f a idx :
  well_formed a → in_bounds (shape a) idx →
  get (map1 f a) idx = f (get a idx).
Proof.
  intros Hwf Hin. unfold get, map1. simpl. rewrite list_lookup_fmap.
  destruct (lookup_lt_is_Some_2 (data a) (ravel (shape a) idx)) as [x ->];
    [|done].
  rewrite Hwf. by apply ravel_lt.
Qed.

Lemma map1_operand f a C G :
  operand C G a →
  operand C G (map1 f a) ∧
  ∀ c g, c < C → g < G → at2 (map1 f a) c g = f (at2 a c g).
Proof.
  intros [Hwf Hfit]. split.
  - split; [|exact Hfit]. unfold well_formed, map1. simpl.
    by rewrite length_fmap.
  - intros c g Hc Hg. unfold at2. simpl.
    apply get_map1; [done|]. by apply (fits2_in_bounds C G).
Qed.

Lemma take_axis_ok ax k a d :
  shape a !! ax = Some d → k < d →
  take_axis ax k a =
    Ok (tabulate (delete ax (shape a))
          (λ idx, get a (take ax idx ++ k :: drop ax idx))).
Proof. intros Hd Hk. unfold take_axis. rewrite Hd. by rewrite decide_True. Qed.

(** [a[..., k]] when the other axes broadcast to cells by genes. *)
Lemma index_last_operand C G k a sh d :
  shape a = sh ++ [d] → k < d → fits2 C G sh →
  ∃ r, index_last k a = Ok r ∧ operand C G r ∧ shape r = sh ∧
       ∀ c g, c < C → g < G → at2 r c g = get a (bidx sh [c; g] ++ [k]).
Proof.
  intros Hs Hk Hfit. unfold index_last, ndim.
  rewrite (take_axis_ok _ k a d); [|by rewrite Hs, length_app, lookup_app_r; simpl;
    [replace (length sh + 1 - 1 - length sh) with 0 by lia|lia]|done].
  rewrite Hs, length_app. simpl.
  replace (length sh + 1 - 1) with (length sh) by lia.
  assert (delete (length sh) (sh ++ [d]) = sh) as Hdel.
  { clear. induction sh as [|x sh IH]; simpl; [done|]. by rewrite IH. }
  rewrite Hdel.
  eexists. split; [reflexivity|].
  split; [split; [apply tabulate_well_formed|exact Hfit]|].
  split; [done|].
  intros c g Hc Hg. unfold at2. simpl.
  pose proof (fits2_in_bounds C G sh c g Hfit Hc Hg) as Hin.
  rewrite get_tabulate by done.
  rewrite <- (Forall2_length _ _ _ Hin).
  by rewrite firstn_all, drop_all.
Qed.

(** [a[:, :, k]] of a cells-by-genes-by-components array. *)
Lemma index_third_operand C G K k a :
  shape a = [C; G; K] → k < K →
  ∃ r, index_third k a = Ok r ∧ operand C G r ∧ shape r = [C; G] ∧
       ∀ c g, c < C → g < G → at2 r c g = get a [c; g; k].
Proof.
  intros Hs Hk. unfold index_third.
  rewrite (take_axis_ok _ k a K); [|by rewrite Hs|done].
  rewrite Hs. simpl.
  eexists. split; [reflexivity|].
  split; [split; [apply tabulate_well_formed|apply fits2_full]|].
  split; [done|].
  intros c g Hc Hg. rewrite (at2_full _ C G) by done.
  rewrite get_tabulate; [done|]. repeat constructor; lia.
Qed.

End NdFacts.

(** ** The minimum of a buffer and the shift by it *)

Module MinFacts.

Import FloatFacts.
Local Open Scope list_scope.

Lemma sf_not_negative_ltb x :
  sf_not_negative x = true → SFltb x (S754_zero false) = false.
Proof. destruct x as [s|[]| |[] m e]; simpl; intros; done. Qed.












End MinFacts.

(** ** The velocity expressions *)

Module VelocityFacts.

Import NdFacts.
Local Open Scope list_scope.

Lemma item2_lookup (smp : samples_dict) k1 k2 (m : summary) a :
  smp !! k1 = Some m → m !! k2 = Some a → item2 smp k1 k2 = Ok a.
Proof. intros H1 H2. unfold item2, getitem. rewrite H1. simpl. by rewrite H2. Qed.

Lemma rate_at_layout a sh d c g :
  shape a = sh ++ [d] → rate_at a c g = get a (bidx sh [c; g] ++ [0]).
Proof. intros Hs. unfold rate_at. by rewrite Hs, removelast_last. Qed.

Lemma index_rate C G a :
  rate_layout C G (shape a) →
  ∃ r, index_last 0 a = Ok r ∧ operand C G r ∧
       ∀ c g, c < C → g < G → at2 r c g = rate_at a c g.
Proof.
  intros (sh & d & Hs & Hd & Hfit).
  destruct (index_last_operand C G 0 a sh d Hs Hd Hfit)
    as (r & Hr & Hop & _ & Hat).
  exists r. split_and!; [done..|].
  intros c g Hc Hg. rewrite (rate_at_layout a sh d) by done. by apply Hat.
Qed.

Lemma velocity_rhs_entries C G K smp (means : summary) b gm mu :
  smp !! "post_sample_means" = Some means →
  means !! "beta_g" = Some b → means !! "gamma_g" = Some gm →
  means !! "mu_RNAvelocity" = Some mu →
  shape mu = [C; G; K] → (2 ≤ K)%nat →
  rate_layout C G (shape b) → rate_layout C G (shape gm) →
  ∃ V, velocity_rhs smp = Ok V ∧ shape V = [C; G] ∧
       ∀ c g, c < C → g < G →
         get V [c; g] =
           PrimFloat.sub (PrimFloat.mul (rate_at b c g) (get mu [c; g; 0]))
                         (PrimFloat.mul (rate_at gm c g) (get mu [c; g; 1])).
Proof.
  intros Hm Hb Hgm Hmu Hs HK Lb Lg. unfold velocity_rhs.
  rewrite (item2_lookup _ _ _ _ _ Hm Hb), (item2_lookup _ _ _ _ _ Hm Hgm),
          (item2_lookup _ _ _ _ _ Hm Hmu).
  cbn [ebind].
  destruct (index_rate C G b Lb) as (b0 & -> & [_ Fb0] & Ab0).
  destruct (index_rate C G gm Lg) as (g0 & -> & [_ Fg0] & Ag0).
  destruct (index_third_operand C G K 0 mu Hs ltac:(lia))
    as (mu0 & -> & [_ Fm0] & Sm0 & Am0).
  destruct (index_third_operand C G K 1 mu Hs ltac:(lia))
    as (mu1 & -> & [_ Fm1] & Sm1 & Am1).
  cbn [ebind].
  destruct (broadcast2_operand PrimFloat.mul b0 mu0 C G Fb0 Fm0)
    as (t1 & E1 & [_ Ft1] & St1 & At1).
  destruct (broadcast2_operand PrimFloat.mul g0 mu1 C G Fg0 Fm1)
    as (t2 & E2 & [_ Ft2] & St2 & At2).
  unfold Nd.mul. rewrite E1. cbn [ebind]. rewrite E2. cbn [ebind].
  destruct (broadcast2_operand PrimFloat.sub t1 t2 C G Ft1 Ft2)
    as (V & EV & _ & SV & AV).
  exists V. split; [exact EV|]. split; [auto|].
  intros c g Hc Hg.
  rewrite <- (at2_full V C G) by auto.
  rewrite AV, At1, At2, Ab0, Ag0, Am0, Am1 by done. done.
Qed.

Lemma gene_layout_rate C G a :
  gene_layout G (shape a) →
  rate_layout C G (shape a) ∧
  ∀ c g, c < C → g < G → rate_at a c g = gene_entry a g.
Proof.
  unfold gene_entry, rate_at.
  intros [[-> Hs]|[(d & Hd & Hs)|(d & Hd & Hs)]]; rewrite Hs.
  - split; [exists [], 1; simpl; auto with lia|]. intros c g Hc Hg. simpl.
    by replace g with 0 by lia.
  - split; [exists [G], d; simpl; auto|]. intros c g Hc Hg. simpl.
    unfold bidx. simpl. case_decide; [by replace g with 0 by lia|done].
  - split; [exists [1; G], d; simpl; auto|]. intros c g Hc Hg. simpl.
    unfold bidx. simpl. case_decide; [by replace g with 0 by lia|done].
Qed.

Lemma second_moment_operand C G smp k sel (means stds : summary)
    m s m0 s0 :
  smp !! "post_sample_means" = Some means → means !! k = Some m →
  smp !! "post_sample_stds" = Some stds → stds !! k = Some s →
  sel m = Ok m0 → operand C G m0 → sel s = Ok s0 → operand C G s0 →
  ∃ r, second_moment smp k sel = Ok r ∧ operand C G r ∧
       (shape m0 = [C; G] → shape r = [C; G]) ∧
       ∀ c g, c < C → g < G →
         at2 r c g = PrimFloat.add (fsquare (at2 m0 c g))
                                   (fsquare (at2 s0 c g)).
Proof.
  intros Hm Hkm Hs Hks Em Om Es Os. unfold second_moment.
  rewrite (item2_lookup _ _ _ _ _ Hm Hkm), (item2_lookup _ _ _ _ _ Hs Hks).
  cbn [ebind]. rewrite Em, Es. cbn [ebind].
  destruct (map1_operand fsquare m0 C G Om) as [[_ Fm] Am].
  destruct (map1_operand fsquare s0 C G Os) as [[_ Fs] As].
  destruct (broadcast2_operand PrimFloat.add (square m0) (square s0) C G Fm Fs)
    as (r & Er & Or & Sr & Ar).
  exists r. split; [exact Er|]. split; [exact Or|]. split.
  - intros Hsh. apply Sr. by left.
  - intros c g Hc Hg. rewrite Ar by done. unfold square.
    by rewrite Am, As.
Qed.

Lemma squared_mean_operand C G smp k sel (means : summary) m m0 :
  smp !! "post_sample_means" = Some means → means !! k = Some m →
  sel m = Ok m0 → operand C G m0 →
  squared_mean smp k sel = Ok (square m0) ∧ operand C G (square m0) ∧
  ∀ c g, c < C → g < G → at2 (square m0) c g = fsquare (at2 m0 c g).
Proof.
  intros Hm Hkm Em Om. unfold squared_mean.
  rewrite (item2_lookup _ _ _ _ _ Hm Hkm). cbn [ebind]. rewrite Em.
  cbn [ebind]. split; [done|]. apply map1_operand, Om.
Qed.

Lemma velocity_sd_rhs_entries C G K K' smp (means stds : summary)
    bm bs gm gs mum mus :
  smp !! "post_sample_means" = Some means →
  smp !! "post_sample_stds" = Some stds →
  means !! "beta_g" = Some bm → stds !! "beta_g" = Some bs →
  means !! "gamma_g" = Some gm → stds !! "gamma_g" = Some gs →
  means !! "mu_RNAvelocity" = Some mum → stds !! "mu_RNAvelocity" = Some mus →
  shape mum = [C; G; K] → shape mus = [C; G; K'] →
  (2 ≤ K)%nat → (2 ≤ K')%nat →
  rate_layout C G (shape bm) → rate_layout C G (shape bs) →
  rate_layout C G (shape gm) → rate_layout C G (shape gs) →
  ∃ V, velocity_sd_rhs smp = Ok V ∧ shape V = [C; G] ∧
       ∀ c g, c < C → g < G →
         get V [c; g] =
           documented_velocity_sd
             (rate_at bm c g) (rate_at bs c g)
             (get mum [c; g; 0]) (get mus [c; g; 0])
             (rate_at gm c g) (rate_at gs c g)
             (get mum [c; g; 1]) (get mus [c; g; 1]).
Proof.
  intros Hm Hs Hbm Hbs Hgm Hgs Hmum Hmus Smum Smus HK HK' Lbm Lbs Lgm Lgs.
  destruct (index_rate C G bm Lbm) as (bm0 & Ebm & Obm & Abm).
  destruct (index_rate C G bs Lbs) as (bs0 & Ebs & Obs & Abs).
  destruct (index_rate C G gm Lgm) as (gm0 & Egm & Ogm & Agm).
  destruct (index_rate C G gs Lgs) as (gs0 & Egs & Ogs & Ags).
  destruct (index_third_operand C G K 0 mum Smum ltac:(lia))
    as (mm0 & Emm0 & Omm0 & Smm0 & Amm0).
  destruct (index_third_operand C G K 1 mum Smum ltac:(lia))
    as (mm1 & Emm1 & Omm1 & Smm1 & Amm1).
  destruct (index_third_operand C G K' 0 mus Smus ltac:(lia))
    as (ms0 & Ems0 & Oms0 & Sms0 & Ams0).
  destruct (index_third_operand C G K' 1 mus Smus ltac:(lia))
    as (ms1 & Ems1 & Oms1 & Sms1 & Ams1).
  destruct (second_moment_operand C G smp "beta_g" (index_last 0) means stds
              bm bs bm0 bs0) as (A & EA & [_ FA] & _ & AA); try done.
  destruct (second_moment_operand C G smp "mu_RNAvelocity" (index_third 0)
              means stds mum mus mm0 ms0) as (B & EB & [_ FB] & SB & AB);
    try done.
  destruct (squared_mean_operand C G smp "beta_g" (index_last 0) means bm bm0)
    as (Ecb & [_ Fcb] & Acb); try done.
  destruct (squared_mean_operand C G smp "mu_RNAvelocity" (index_third 0)
              means mum mm0) as (Ecm & [_ Fcm] & Acm); try done.
  destruct (second_moment_operand C G smp "gamma_g" (index_last 0) means stds
              gm gs gm0 gs0) as (D & ED & [_ FD] & _ & AD); try done.
  destruct (second_moment_operand C G smp "mu_RNAvelocity" (index_third 1)
              means stds mum mus mm1 ms1) as (E & EE & [_ FE] & SE & AE);
    try done.
  destruct (squared_mean_operand C G smp "gamma_g" (index_last 0) means gm gm0)
    as (Efg & [_ Ffg] & Afg); try done.
  destruct (squared_mean_operand C G smp "mu_RNAvelocity" (index_third 1)
              means mum mm1) as (Efm & [_ Ffm] & Afm); try done.
  destruct (broadcast2_operand PrimFloat.mul A B C G FA FB)
    as (P & EP & [_ FP] & SP & AP).
  destruct (broadcast2_operand PrimFloat.mul _ _ C G Fcb Fcm)
    as (Cc & ECc & [_ FCc] & _ & ACc).
  destruct (broadcast2_operand PrimFloat.sub P Cc C G FP FCc)
    as (PC & EPC & [_ FPC] & SPC & APC).
  destruct (broadcast2_operand PrimFloat.mul D E C G FD FE)
    as (DE & EDE & [_ FDE] & _ & ADE).
  destruct (broadcast2_operand PrimFloat.add PC DE C G FPC FDE)
    as (S1 & ES1 & [_ FS1] & SS1 & AS1).
  destruct (broadcast2_operand PrimFloat.mul _ _ C G Ffg Ffm)
    as (F & EF & [_ FF] & _ & AF).
  destruct (broadcast2_operand PrimFloat.sub S1 F C G FS1 FF)
    as (R & ER & OR & SR & AR).
  unfold velocity_sd_rhs, Nd.mul, Nd.sub, Nd.add.
  rewrite EA; cbn [ebind]. rewrite EB; cbn [ebind]. rewrite EP; cbn [ebind].
  rewrite Ecb; cbn [ebind]. rewrite Ecm; cbn [ebind]. rewrite ECc; cbn [ebind].
  rewrite EPC; cbn [ebind]. rewrite ED; cbn [ebind]. rewrite EE; cbn [ebind].
  rewrite EDE; cbn [ebind]. rewrite ES1; cbn [ebind]. rewrite Efg; cbn [ebind].
  rewrite Efm; cbn [ebind]. rewrite EF; cbn [ebind]. rewrite ER; cbn [ebind].
  assert (shape R = [C; G]) as HR.
  { apply SR. left. apply SS1. left. apply SPC. left. apply SP. right.
    by apply SB. }
  destruct (map1_operand PrimFloat.sqrt R C G OR) as [_ Asq].
  exists (Nd.sqrt R). split; [done|]. split; [exact HR|].
  intros c g Hc Hg.
  rewrite <- (at2_full (Nd.sqrt R) C G) by done.
  unfold Nd.sqrt. rewrite Asq by done.
  rewrite AR, AS1, APC, AP, ACc, ADE, AF by done.
  rewrite AA, AB, Acb, Acm, AD, AE, Afg, Afm by done.
  rewrite Abm, Abs, Agm, Ags, Amm0, Amm1, Ams0, Ams1 by done.
  reflexivity.
Qed.

(** The raw draws: rates of shape draws by one by genes by components,
    velocity means of shape draws by cells by genes by components. *)
Lemma broadcast_shapes_draws S C G :
  broadcast_shapes [S; 1; G] [S; C; G] = Some [S; C; G].
Proof.
  unfold broadcast_shapes. cbn [reverse rev_append bshape_rev].
  repeat case_decide; by subst.
Qed.

Lemma broadcast_shapes_same3 S C G :
  broadcast_shapes [S; C; G] [S; C; G] = Some [S; C; G].
Proof.
  unfold broadcast_shapes. cbn [reverse rev_append bshape_rev].
  repeat case_decide; by subst.
Qed.

Lemma bidx_draws S G s c g :
  s < S → g < G → bidx [S; 1; G] [s; c; g] = [s; 0; g].
Proof.
  intros Hs Hg. unfold bidx. cbn.
  repeat case_decide; repeat f_equal; lia.
Qed.

Lemma velocity_posterior_rhs_entries S C G K d1 d2 smp (ps : summary)
    b gm mu :
  smp !! "posterior_samples" = Some ps →
  ps !! "beta_g" = Some b → ps !! "gamma_g" = Some gm →
  ps !! "mu_RNAvelocity" = Some mu →
  shape b = [S; 1; G; d1] → 0 < d1 → shape gm = [S; 1; G; d2] → 0 < d2 →
  shape mu = [S; C; G; K] → (2 ≤ K)%nat →
  ∃ vp, velocity_posterior_rhs smp = Ok vp ∧ shape vp = [S; C; G] ∧
        ∀ s c g, s < S → c < C → g < G →
          get vp [s; c; g] =
            PrimFloat.sub
              (PrimFloat.mul (get b [s; 0; g; 0]) (get mu [s; c; g; 0]))
              (PrimFloat.mul (get gm [s; 0; g; 0]) (get mu [s; c; g; 1])).
Proof.
  intros Hps Hb Hgm Hmu Sb Hd1 Sgm Hd2 Smu HK.
  unfold velocity_posterior_rhs.
  rewrite (item2_lookup _ _ _ _ _ Hps Hb), (item2_lookup _ _ _ _ _ Hps Hgm),
    (item2_lookup _ _ _ _ _ Hps Hmu).
  cbn [ebind]. unfold index_last, ndim. rewrite Sb, Sgm, Smu. cbn [length Nat.sub].
  rewrite (take_axis_ok 3 0 b d1) by (by rewrite Sb || done).
  rewrite (take_axis_ok 3 0 gm d2) by (by rewrite Sgm || done).
  rewrite (take_axis_ok 3 0 mu K) by (by rewrite Smu || lia).
  rewrite (take_axis_ok 3 1 mu K) by (by rewrite Smu || lia).
  rewrite Sb, Sgm, Smu. cbn [ebind delete list_delete].
  unfold Nd.mul, Nd.sub, broadcast2. cbn [shape tabulate].
  rewrite broadcast_shapes_draws. cbn [ebind shape tabulate].
  rewrite broadcast_shapes_same3.
  eexists. split; [reflexivity|]. split; [reflexivity|].
  intros s c g Hs Hc Hg.
  assert (in_bounds [S; C; G] [s; c; g]) as Hin by (repeat constructor; lia).
  assert (in_bounds [S; 1; G] [s; 0; g]) as Hin' by (repeat constructor; lia).
  rewrite get_tabulate by done.
  rewrite !(bidx_same [S; C; G] [s; c; g] Hin).
  rewrite !(get_tabulate [S; C; G] _ [s; c; g] Hin).
  rewrite !(bidx_same [S; C; G] [s; c; g] Hin), !(bidx_draws S G s c g Hs Hg).
  by rewrite !get_tabulate by done.
Qed.

End VelocityFacts.

(** ** The corrected and shifted counts *)

Module NormalizeFacts.

Import NdFacts FloatFacts MinFacts.
Local Open Scope list_scope.


Lemma foldl_ext_elem {A B} (f g : A → B → A) (l : list B) (a : A) :
  (∀ acc x, x ∈ l → f acc x = g acc x) → foldl f a l = foldl g a l.
Proof.
  revert a. induction l as [|x l IH]; intros a H; simpl; [done|].
  rewrite H by left. apply IH. intros acc y Hy. apply H. by right.
Qed.

Lemma dot_matrix a b n k m :
  shape a = [n; k] → shape b = [k; m] →
  ∃ r, dot a b = Ok r ∧ operand n m r ∧ shape r = [n; m] ∧
       ∀ i j, i < n → j < m →
         get r [i; j] =
           foldl (λ acc l, PrimFloat.add acc
                             (PrimFloat.mul (get a [i; l]) (get b [l; j])))
                 0%float (seq 0 k).
Proof.
  intros Ha Hb. unfold dot, ndim. rewrite Ha, Hb. simpl.
  rewrite decide_True by done.
  eexists. split; [reflexivity|].
  split; [split; [apply tabulate_well_formed|apply fits2_full]|].
  split; [done|].
  intros i j Hi Hj. rewrite get_tabulate; [done|]. repeat constructor; lia.
Qed.

Lemma index_first0_operand C G d D x y :
  shape d = [D; x; y] → 0 < D → fits2 C G [x; y] →
  ∃ r, index_first0 d = Ok r ∧ operand C G r ∧
       ∀ c g, c < C → g < G → at2 r c g = efficiency_at d c g.
Proof.
  intros Hs HD Hfit. unfold index_first0, ndim. rewrite Hs. simpl.
  rewrite (take_axis_ok 0 0 d D); [|by rewrite Hs|done].
  rewrite Hs. simpl.
  eexists. split; [reflexivity|].
  split; [split; [apply tabulate_well_formed|exact Hfit]|].
  intros c g Hc Hg. unfold at2, efficiency_at. rewrite Hs. simpl.
  by rewrite get_tabulate by (by apply (fits2_in_bounds C G)).
Qed.

(** The columns of [pd.get_dummies] are the batches in their numbering. *)
Lemma elem_of_categories codes v : v ∈ categories codes ↔ v ∈ codes.
Proof.
  unfold categories. rewrite list_elem_of_filter, elem_of_seq.
  split; [by intros [? _]|]. intros Hv. split; [done|].
  pose proof (max_list_elem_of_le v codes Hv). lia.
Qed.

Lemma NoDup_categories codes : NoDup (categories codes).
Proof. apply NoDup_filter, NoDup_seq. Qed.

Lemma categories_length codes : length (categories codes) = batch_count codes.
Proof.
  unfold batch_count. apply Permutation_length, NoDup_Permutation.
  - apply NoDup_categories.
  - apply NoDup_remove_dups.
  - intros v. by rewrite elem_of_categories, elem_of_remove_dups.
Qed.

Lemma categories_lookup codes v :
  v ∈ codes → categories codes !! batch_number codes v = Some v.
Proof.
  intros Hv. unfold categories, batch_number.
  pose proof (max_list_elem_of_le v codes Hv) as Hle.
  replace (S (max_list codes)) with (v + S (max_list codes - v)) by lia.
  rewrite seq_app, filter_app. cbn [seq]. rewrite filter_cons_True by done.
  assert (length (remove_dups (filter (λ u, u < v) codes))
          = length (filter (λ u, u ∈ codes) (seq 0 v))) as ->.
  { apply Permutation_length, NoDup_Permutation.
    - apply NoDup_remove_dups.
    - apply NoDup_filter, NoDup_seq.
    - intros u. rewrite elem_of_remove_dups, !list_elem_of_filter, elem_of_seq.
      split; intros [? ?]; split; (done || lia). }
  by rewrite lookup_app_r, Nat.sub_diag by done.
Qed.

Lemma get_dummies_indicator codes c l :
  c < length codes → l < batch_count codes →
  get (get_dummies codes) [c; l] = batch_indicator codes c l.
Proof.
  intros Hc Hl. unfold get_dummies. cbv zeta.
  rewrite get_tabulate
    by (rewrite categories_length; repeat constructor; done).
  unfold batch_indicator.
  destruct (lookup_lt_is_Some_2 codes c Hc) as [v Hv]. rewrite Hv.
  assert (v ∈ codes) as Hin by (by eapply list_elem_of_lookup_2).
  pose proof (categories_lookup codes v Hin) as Hcat.
  destruct (decide (batch_number codes v = l)) as [<-|Hne].
  - by rewrite decide_True.
  - rewrite decide_False; [done|]. intros Heq. apply Hne.
    eapply NoDup_lookup; [apply NoDup_categories|exact Hcat|done].
Qed.

Lemma corrected_entries C G B K k counts batch (samples : summary) det d sg :
  shape counts = [C; G] → length batch = C →
  batch_count batch = B →
  samples !! det = Some d →
  (∃ D x y, shape d = [D; x; y] ∧ 0 < D ∧ fits2 C G [x; y]) →
  samples !! "s_g_gene_add" = Some sg → shape sg = [B; G; K] → k < K →
  ∃ X, corrected counts (get_dummies batch) samples det k = Ok X ∧
       well_formed X ∧ shape X = [C; G] ∧
       ∀ c g, c < C → g < G →
         get X [c; g] = corrected_entry counts d batch sg k c g.
Proof.
  intros Hc Hb HB Hd (D & x & y & Sd & HD & Fd) Hsg Ssg Hk.
  unfold corrected, getitem. rewrite Hd, Hsg. cbn [ebind].
  destruct (index_first0_operand C G d D x y Sd HD Fd)
    as (d0 & -> & [_ Fd0] & Ad0).
  cbn [ebind].
  assert (fits2 C G (shape counts)) as Fc by (rewrite Hc; apply fits2_full).
  destruct (broadcast2_operand PrimFloat.div counts d0 C G Fc Fd0)
    as (q & Eq & [_ Fq] & Sq & Aq).
  unfold Nd.div. rewrite Eq. cbn [ebind].
  destruct (index_third_operand B G K k sg Ssg Hk)
    as (sgk & -> & _ & Ssgk & Asgk).
  cbn [ebind].
  destruct (dot_matrix (get_dummies batch) sgk C B G)
    as (bg & -> & [_ Fbg] & Sbg & Abg);
    [by simpl; rewrite Hb, categories_length, HB|done|].
  cbn [ebind].
  destruct (broadcast2_operand PrimFloat.sub q bg C G Fq Fbg)
    as (X & EX & [WX _] & SX & AX).
  exists X. split; [exact EX|]. split; [exact WX|]. split; [auto|].
  intros c g Hcc Hg.
  rewrite <- (at2_full X C G) by auto.
  rewrite AX, Aq by done.
  rewrite (at2_full counts C G), (at2_full bg C G), Ad0, Abg by done.
  unfold corrected_entry, background_at. rewrite HB. f_equal.
  apply foldl_ext_elem. intros acc l Hl. apply elem_of_seq in Hl.
  rewrite get_dummies_indicator by lia.
  rewrite <- (Asgk l g) by lia.
  by rewrite (at2_full sgk B G) by (done || lia).
Qed.







End NormalizeFacts.

(** ** Runs of the methods *)

(** [run_post m Q w]: the outcome of [m] from the store [w], returned value
    or exception, and the store it leaves satisfy [Q]. *)

Section RunFacts.

Context {G : Type}.

Definition run_post {A} (m : M G A) (Q : Err A → world G → Prop)
    (w : world G) : Prop :=
  Q (m w).1 (m w).2.

Lemma run_post_elim {A} (m : M G A) Q w r w' :
  run_post m Q w → m w = (r, w') → Q r w'.
Proof. unfold run_post. intros H E. by rewrite E in H. Qed.

Lemma run_ret {A} (a : A) Q (w : world G) : Q (Ok a) w → run_post (ret a) Q w.
Proof. done. Qed.

Lemma run_raise {A} e (Q : Err A → world G → Prop) w :
  Q (Raise e) w → run_post (raise e) Q w.
Proof. done. Qed.

Lemma run_lift {A} (e : Err A) Q (w : world G) :
  Q e w → run_post (lift e) Q w.
Proof. done. Qed.

Lemma run_gets {A} (f : world G → A) Q w :
  Q (Ok (f w)) w → run_post (gets f) Q w.
Proof. done. Qed.

Lemma run_modify f Q (w : world G) :
  Q (Ok tt) (f w) → run_post (modify f) Q w.
Proof. done. Qed.

Lemma run_emit e Q (w : world G) :
  Q (Ok tt) (with_event e w) → run_post (emit e) Q w.
Proof. done. Qed.

Lemma run_bind_ret {A B} (a : A) (k : A → M G B) Q w :
  run_post (k a) Q w → run_post (bind (ret a) k) Q w.
Proof. done. Qed.

Lemma run_bind_raise {A B} e (k : A → M G B) Q w :
  Q (Raise e) w → run_post (bind (raise e) k) Q w.
Proof. done. Qed.

Lemma run_bind_lift {A B} (e : Err A) (k : A → M G B) Q w :
  match e with
  | Ok a => run_post (k a) Q w
  | Raise x => Q (Raise x) w
  end →
  run_post (bind (lift e) k) Q w.
Proof. by destruct e. Qed.

Lemma run_bind_gets {A B} (f : world G → A) (k : A → M G B) Q w :
  run_post (k (f w)) Q w → run_post (bind (gets f) k) Q w.
Proof. done. Qed.

Lemma run_bind_modify {B} f (k : unit → M G B) Q w :
  run_post (k tt) Q (f w) → run_post (bind (modify f) k) Q w.
Proof. done. Qed.

Lemma run_bind_emit {B} e (k : unit → M G B) Q w :
  run_post (k tt) Q (with_event e w) → run_post (bind (emit e) k) Q w.
Proof. done. Qed.

Lemma run_bind_assoc {A B C} (m : M G A) (k : A → M G B) (k' : B → M G C)
    Q w :
  run_post (bind m (λ a, bind (k a) k')) Q w →
  run_post (bind (bind m k) k') Q w.
Proof.
  unfold run_post.
  replace (bind (bind m k) k' w) with (bind m (λ a, bind (k a) k') w);
    [done|].
  unfold bind. destruct (m w) as [r w1]. by destruct r.
Qed.

Lemma run_bind_attr_samples {B} (k : samples_dict → M G B) Q w :
  match self_samples w with
  | Some s => run_post (k s) Q w
  | None => Q (Raise (AttributeError "samples")) w
  end →
  run_post (bind attr_samples k) Q w.
Proof.
  unfold attr_samples, run_post, bind, gets, ret, raise.
  by destruct (self_samples w).
Qed.

Lemma run_bind_attr_expected {B} (k : summary → M G B) Q w :
  match self_expected_nb_param w with
  | Some s => run_post (k s) Q w
  | None => Q (Raise (AttributeError "expected_nb_param")) w
  end →
  run_post (bind attr_expected_nb_param k) Q w.
Proof.
  unfold attr_expected_nb_param, run_post, bind, gets, ret, raise.
  by destruct (self_expected_nb_param w).
Qed.

Lemma run_bind_export_column {B} set col k1 k2 (k : unit → M G B) Q w :
  match self_samples w with
  | Some s =>
      match item2 s k1 k2 with
      | Ok a => run_post (k tt) Q (with_adata (set col (flatten a)) w)
      | Raise e => Q (Raise e) w
      end
  | None => Q (Raise (AttributeError "samples")) w
  end →
  run_post (bind (export_column set col k1 k2) k) Q w.
Proof.
  unfold export_column, attr_samples, run_post, bind, gets, ret, raise, lift,
    modify.
  destruct (self_samples w) as [s|]; [|done]. by destruct (item2 s k1 k2).
Qed.

Lemma getitem_set_uns slot v a : getitem (uns (set_uns slot v a)) slot = Ok v.
Proof. unfold getitem. simpl. by rewrite lookup_insert_eq. Qed.

Section Externals.

Variable sample_posterior : gmap string kwval → G → option samples_dict * G.
Variable random_choice : nat → nat → G → list nat * G.
Variable compute_expected :
  summary → Registry → option (list nat) → option summary.

Lemma run_bind_sample_posterior {B} kw (k : samples_dict → M G B) Q w :
  match sample_posterior kw (entropy w) with
  | (Some s, g) =>
      run_post (k s) Q (with_entropy g (with_event (SamplePosterior kw) w))
  | (None, g) =>
      Q (Raise (ExternalError "sample_posterior"))
        (with_entropy g (with_event (SamplePosterior kw) w))
  end →
  run_post (bind (call_sample_posterior sample_posterior kw) k) Q w.
Proof.
  unfold call_sample_posterior, emit, modify, run_post, bind. simpl.
  by destruct (sample_posterior kw (entropy w)) as [[s|] g].
Qed.

Lemma run_bind_compute_expected {B} s r ind (k : summary → M G B) Q w :
  match compute_expected s r ind with
  | Some p => run_post (k p) Q (with_event (ComputeExpected s ind) w)
  | None => Q (Raise (ExternalError "compute_expected"))
              (with_event (ComputeExpected s ind) w)
  end →
  run_post (bind (call_compute_expected compute_expected s r ind) k) Q w.
Proof.
  unfold call_compute_expected, emit, modify, run_post, bind, ret, raise.
  simpl. by destruct (compute_expected s r ind).
Qed.

Lemma run_bind_random_choice {B} a size (k : list nat → M G B) Q w :
  (if decide (size < 0)%Z then
     Q (Raise ValueError) (with_event (RandomChoice a size) w)
   else if decide (Z.of_nat a < size)%Z then
     Q (Raise ValueError) (with_event (RandomChoice a size) w)
   else
     run_post (k (random_choice a (Z.to_nat size) (entropy w)).1) Q
       (with_entropy (random_choice a (Z.to_nat size) (entropy w)).2
          (with_event (RandomChoice a size) w))) →
  run_post (bind (np_random_choice random_choice a size) k) Q w.
Proof.
  unfold np_random_choice, emit, modify, run_post, bind, raise. simpl.
  repeat case_decide; try done. simpl.
  by destruct (random_choice a (Z.to_nat size) (entropy w)) as [l g].
Qed.

End Externals.

End RunFacts.

(** One step of a run: the head of the computation is executed, its
    dictionary reads and array expressions split into their two outcomes. *)
Ltac run_store t :=
  eval cbv beta iota delta
    [with_adata with_samples with_expected with_entropy with_event
     self_samples self_expected_nb_param adata today entropy trace] in t.

Ltac run_state :=
  try lazymatch goal with
      | |- match ?e with _ => _ end =>
          let e' := run_store e in progress change e with e'
      end;
  cbv beta iota;
  try lazymatch goal with
      | |- run_post ?m ?Q ?w =>
          let w' := run_store w in progress change (run_post m Q w')
      end.

(** A case split on [e], or the case a hypothesis already gives. *)
Ltac run_case e :=
  first
    [ lazymatch goal with H : e = _ |- _ => rewrite H end
    | destruct e eqn:? ].

Ltac run_step :=
  lazymatch goal with
  | |- run_post (bind (bind _ _) _) _ _ => apply run_bind_assoc
  | |- run_post (bind (ret _) _) _ _ => apply run_bind_ret
  | |- run_post (bind (raise _) _) _ _ => apply run_bind_raise
  | |- run_post (bind (lift (getitem (uns (set_uns _ _ _)) _)) _) _ _ =>
      rewrite getitem_set_uns; apply run_bind_lift
  | |- run_post (bind (lift ?e) _) _ _ => apply run_bind_lift
  | |- run_post (bind (gets _) _) _ _ => apply run_bind_gets
  | |- run_post (bind (modify _) _) _ _ => apply run_bind_modify
  | |- run_post (bind (emit _) _) _ _ => apply run_bind_emit
  | |- run_post (bind (if ?b then _ else _) _) _ _ => run_case b
  | |- run_post (bind (match ?x with _ => _ end) _) _ _ => run_case x
  | |- run_post (bind attr_samples _) _ _ => apply run_bind_attr_samples
  | |- run_post (bind attr_expected_nb_param _) _ _ =>
      apply run_bind_attr_expected
  | |- run_post (bind (export_column _ _ _ _) _) _ _ =>
      apply run_bind_export_column
  | |- run_post (bind (store_post_samples _ _) _) _ _ =>
      unfold store_post_samples at 1
  | |- run_post (bind (_export2adata _ _) _) _ _ => unfold _export2adata at 1
  | |- run_post (bind (normalize _ _) _) _ _ => unfold normalize at 1
  | |- run_post (bind (plot_posterior_mu_vs_data _ _) _) _ _ =>
      unfold plot_posterior_mu_vs_data at 1
  | |- run_post (bind (draw_ind_x _ _ _) _) _ _ => unfold draw_ind_x at 1
  | |- run_post (bind (plot_step _ _ _ _) _) _ _ => unfold plot_step at 1
  | |- run_post (plot_step _ _ _ _) _ _ => unfold plot_step at 1
  | |- run_post (bind (multiplot_from_generator _ _) _) _ _ =>
      cbn [multiplot_from_generator generatePlots]
  | |- run_post (multiplot_from_generator _ _) _ _ =>
      cbn [multiplot_from_generator generatePlots]
  | |- run_post (bind (call_sample_posterior _ _) _) _ _ =>
      apply run_bind_sample_posterior
  | |- run_post (bind (call_compute_expected _ _ _ _) _) _ _ =>
      apply run_bind_compute_expected
  | |- run_post (bind (np_random_choice _ _ _) _) _ _ =>
      apply run_bind_random_choice
  | |- run_post (store_post_samples _ _) _ _ => unfold store_post_samples at 1
  | |- run_post (normalize _ _) _ _ => unfold normalize at 1
  | |- run_post (ret _) _ _ => apply run_ret
  | |- run_post (raise _) _ _ => apply run_raise
  | |- run_post (lift _) _ _ => apply run_lift
  | |- run_post (gets _) _ _ => apply run_gets
  | |- run_post (modify _) _ _ => apply run_modify
  | |- run_post (emit _) _ _ => apply run_emit
  | |- run_post (if ?b then _ else _) _ _ => run_case b
  | |- run_post (match ?x with _ => _ end) _ _ => run_case x
  | |- match ?x with (_, _) => _ end =>
      first
        [ lazymatch goal with H : x = _ |- _ => rewrite H end
        | destruct x as [[?|] ?] eqn:? ]
  | |- match ?x with _ => _ end => run_case x
  | |- if ?b then _ else _ => run_case b
  end; run_state.

(** * The claims *)

Local Open Scope list_scope.

(** ** What a returning [export_posterior] has written *)

Import VelocityFacts.

Section ExportFacts.

Context {G : Type}.
Variable sample_posterior : gmap string kwval → G → option samples_dict * G.

Lemma export_posterior_returns self arg slot fvp norm (w : world G) :
  let run := export_posterior sample_posterior self arg slot fvp norm w in
  returned run.1 →
  ∃ smp V Vsd,
    (sample_posterior (kwargs_of arg) (entropy w)).1 = Some smp ∧
    self_samples run.2 = Some smp ∧ run.1 = Ok (adata run.2) ∧
    velocity_rhs smp = Ok V ∧ velocity_sd_rhs smp = Ok Vsd ∧
    layers (adata run.2) !! "velocity" = Some V ∧
    layers (adata run.2) !! "velocity_sd" = Some Vsd.
Proof.
  change (run_post (export_posterior sample_posterior self arg slot fvp norm)
            (λ r w', returned r → ∃ smp V Vsd,
               (sample_posterior (kwargs_of arg) (entropy w)).1 = Some smp ∧
               self_samples w' = Some smp ∧ r = Ok (adata w') ∧
               velocity_rhs smp = Ok V ∧ velocity_sd_rhs smp = Ok Vsd ∧
               layers (adata w') !! "velocity" = Some V ∧
               layers (adata w') !! "velocity_sd" = Some Vsd) w).
  destruct w as [ss ex ad td en tr]. unfold export_posterior.
  repeat run_step.
  all: intros Hret; try done.
  all: cbv beta iota delta [self_samples adata entropy].
  all: eexists _, _, _; split_and!; try done.
  all: try (by match goal with
               | H : sample_posterior _ _ = _ |- _ => rewrite H
               end).
  all: cbn [layers set_layer set_uns set_var set_obs].
  all: repeat (rewrite lookup_insert_ne by done); by rewrite lookup_insert_eq.
Qed.

(** C1 (amended). When [beta_g] and [gamma_g] hold one rate per gene along
    a gene axis (genes by components, one by genes by components, or a
    single entry for a single gene) and [mu_RNAvelocity] is cells by genes
    by at least two components, a returning [export_posterior] has written
    [velocity[c, g] = beta_g[g] * mu[c, g, 0] - gamma_g[g] * mu[c, g, 1]]
    for every cell [c] and gene [g], from the posterior means of the
    samples it drew. *)
Theorem export_posterior_velocity self arg slot fvp norm (w : world G)
    smp g0 (means : summary) b gm mu C n_genes K :
  let run := export_posterior sample_posterior self arg slot fvp norm w in
  sample_posterior (kwargs_of arg) (entropy w) = (Some smp, g0) →
  returned run.1 →
  smp !! "post_sample_means" = Some means →
  means !! "beta_g" = Some b → means !! "gamma_g" = Some gm →
  means !! "mu_RNAvelocity" = Some mu →
  shape mu = [C; n_genes; K] → (2 ≤ K)%nat →
  gene_layout n_genes (shape b) → gene_layout n_genes (shape gm) →
  ∃ V, layers (adata run.2) !! "velocity" = Some V ∧
       shape V = [C; n_genes] ∧
       ∀ c g, c < C → g < n_genes →
         get V [c; g] =
           PrimFloat.sub (PrimFloat.mul (gene_entry b g) (get mu [c; g; 0]))
                         (PrimFloat.mul (gene_entry gm g) (get mu [c; g; 1])).
Proof.
  intros run Hsp Hrun Hm Hb Hgm Hmu Smu HK Lb Lgm.
  destruct (export_posterior_returns _ _ _ _ _ _ Hrun)
    as (smp' & V & _ & Hsmp' & _ & _ & HV & _ & HL & _).
  rewrite Hsp in Hsmp'. injection Hsmp' as <-.
  destruct (gene_layout_rate C n_genes b Lb) as [Rb Eb].
  destruct (gene_layout_rate C n_genes gm Lgm) as [Rgm Egm].
  destruct (velocity_rhs_entries C n_genes K smp means b gm mu
              Hm Hb Hgm Hmu Smu HK Rb Rgm) as (V' & HV' & SV & EV).
  assert (V' = V) as -> by congruence.
  exists V. split; [done|]. split; [done|].
  intros c g Hc Hg. by rewrite EV, Eb, Egm.
Qed.

(** C2 (amended). When the posterior means and standard deviations of
    [beta_g] and [gamma_g] hold one rate per gene along a gene axis (genes
    by components, one by genes by components, or a single entry for a
    single gene) and those of [mu_RNAvelocity] are cells by genes by at
    least two components, a returning [export_posterior] has written in
    [velocity_sd], for every cell [c] and gene [g], the documented formula
    applied to the entries of gene [g] in the means and standard deviations
    of [beta_g] and [gamma_g] and to the entries at [c], [g] of the two
    components of [mu_RNAvelocity]. *)
Theorem export_posterior_velocity_sd self arg slot fvp norm (w : world G)
    smp g0 (means stds : summary) bm bs gm gs mum mus C n_genes K K' :
  let run := export_posterior sample_posterior self arg slot fvp norm w in
  sample_posterior (kwargs_of arg) (entropy w) = (Some smp, g0) →
  returned run.1 →
  smp !! "post_sample_means" = Some means →
  smp !! "post_sample_stds" = Some stds →
  means !! "beta_g" = Some bm → stds !! "beta_g" = Some bs →
  means !! "gamma_g" = Some gm → stds !! "gamma_g" = Some gs →
  means !! "mu_RNAvelocity" = Some mum → stds !! "mu_RNAvelocity" = Some mus →
  shape mum = [C; n_genes; K] → shape mus = [C; n_genes; K'] →
  (2 ≤ K)%nat → (2 ≤ K')%nat →
  gene_layout n_genes (shape bm) → gene_layout n_genes (shape bs) →
  gene_layout n_genes (shape gm) → gene_layout n_genes (shape gs) →
  ∃ V, layers (adata run.2) !! "velocity_sd" = Some V ∧
       shape V = [C; n_genes] ∧
       ∀ c g, c < C → g < n_genes →
         get V [c; g] =
           documented_velocity_sd
             (gene_entry bm g) (gene_entry bs g)
             (get mum [c; g; 0]) (get mus [c; g; 0])
             (gene_entry gm g) (gene_entry gs g)
             (get mum [c; g; 1]) (get mus [c; g; 1]).
Proof.
  intros run Hsp Hrun Hm Hs Hbm Hbs Hgm Hgs Hmum Hmus Smum Smus HK HK'
         Lbm Lbs Lgm Lgs.
  destruct (export_posterior_returns _ _ _ _ _ _ Hrun)
    as (smp' & _ & V & Hsmp' & _ & _ & _ & HV & _ & HL).
  rewrite Hsp in Hsmp'. injection Hsmp' as <-.
  destruct (gene_layout_rate C n_genes bm Lbm) as [Rbm Ebm].
  destruct (gene_layout_rate C n_genes bs Lbs) as [Rbs Ebs].
  destruct (gene_layout_rate C n_genes gm Lgm) as [Rgm Egm].
  destruct (gene_layout_rate C n_genes gs Lgs) as [Rgs Egs].
  destruct (velocity_sd_rhs_entries C n_genes K K' smp means stds
              bm bs gm gs mum mus) as (V' & HV' & SV & EV); try done.
  assert (V' = V) as -> by congruence.
  exists V. split; [done|]. split; [done|].
  intros c g Hc Hg. by rewrite EV, Ebm, Ebs, Egm, Egs.
Qed.

End ExportFacts.

Import Examples.

(** The round trip of the specification. *)
Lemma export_posterior_velocity_round_trip :
  let run := export_posterior (sampler posterior) model summaries_only "mod"
               false true store0 in
  ∃ V, layers (adata run.2) !! "velocity" = Some V ∧ shape V = [1; 1] ∧
       get V [0; 0] = 5%float.
Proof.
  intros run.
  destruct (export_posterior_velocity (sampler posterior) model summaries_only
              "mod" false true store0 posterior tt means
              (gene_param 2) (gene_param 1)
              (NdArray [1; 1; 2] [3; 1]%float) 1 1 2)
    as (V & HV & SV & EV).
  - reflexivity.
  - vm_compute. exact I.
  - reflexivity.
  - reflexivity.
  - reflexivity.
  - reflexivity.
  - reflexivity.
  - lia.
  - left. split; reflexivity.
  - left. split; reflexivity.
  - exists V. split; [exact HV|]. split; [exact SV|].
    rewrite (EV 0 0) by lia. reflexivity.
Defined.

(** ** The normalised layers *)

Import NdFacts FloatFacts MinFacts NormalizeFacts.

Section NormalizeClaim.
Context {G : Type}.


End NormalizeClaim.

(** ** Concrete runs of the export and of the normalisation *)

(** The round trip of the specification, for the uncertainty: with the
    standard deviations 0.5 of [beta_g], 1.25 of [gamma_g], 2.0 and 2.25 of
    the two components of [mu_RNAvelocity], the formula gives the square
    root of [4.25 * 13 - 36 + 2.5625 * 6.0625 - 1 = 33.78515625]. *)
Lemma export_posterior_velocity_sd_round_trip :
  let run := export_posterior (sampler posterior) model summaries_only "mod"
               false true store0 in
  ∃ V, layers (adata run.2) !! "velocity_sd" = Some V ∧ shape V = [1; 1] ∧
       get V [0; 0] = 5.8125%float.
Proof.
  intros run.
  destruct (export_posterior_velocity_sd (sampler posterior) model
              summaries_only "mod" false true store0 posterior tt means stds
              (gene_param 2) (gene_param 0.5) (gene_param 1) (gene_param 1.25)
              (NdArray [1; 1; 2] [3; 1]%float)
              (NdArray [1; 1; 2] [2; 2.25]%float) 1 1 2 2)
    as (V & HV & SV & EV).
  - reflexivity.
  - vm_compute. exact I.
  - reflexivity.
  - reflexivity.
  - reflexivity.
  - reflexivity.
  - reflexivity.
  - reflexivity.
  - reflexivity.
  - reflexivity.
  - reflexivity.
  - reflexivity.
  - lia.
  - lia.
  - left. split; reflexivity.
  - left. split; reflexivity.
  - left. split; reflexivity.
  - left. split; reflexivity.
  - exists V. split; [exact HV|]. split; [exact SV|].
    rewrite (EV 0 0) by lia. reflexivity.
Defined.

(** One cell and two genes, every per-gene parameter a one-dimensional array
    with one entry per gene. The export returns, with the six per-cell
    columns, the ten per-gene columns and the two layers in the lengths and
    shapes of the data object. [[..., 0]] takes the rate of gene 0 for
    every gene: the velocity written for gene 1 is [2 * 3 - 1 * 1], where
    the rates of gene 1 give [7 * 3 - 1 * 1]. *)
Lemma export_posterior_velocity_flat_rates :
  let beta := NdArray [2] [2; 7]%float in
  let gamma := NdArray [2] [1; 1]%float in
  let mu := NdArray [1; 2; 2] [3; 1; 3; 1]%float in
  let run := export_posterior (sampler posterior_flat) model_flat
               summaries_only "mod" false false store_flat in
  means_flat !! "beta_g" = Some beta ∧ means_flat !! "gamma_g" = Some gamma ∧
  means_flat !! "mu_RNAvelocity" = Some mu ∧
  returned run.1 ∧ accepted (adata run.2) ∧
  size (obs (adata run.2)) = 6 ∧ size (var (adata run.2)) = 10 ∧
  layers (adata run.2) !! "velocity" = Some (NdArray [1; 2] [5; 5]%float) ∧
  PrimFloat.sub (PrimFloat.mul (get beta [1]) (get mu [0; 1; 0]))
                (PrimFloat.mul (get gamma [1]) (get mu [0; 1; 1]))
    = 20%float ∧
  PrimFloat.eqb 5 20 = false.
Proof.
  cbv zeta. split_and!; [reflexivity..| | | | | | |].
  - vm_compute. exact I.
  - unfold accepted. split_and!; apply map_Forall_to_list; vm_compute;
      repeat constructor.
  - vm_compute. reflexivity.
  - vm_compute. reflexivity.
  - vm_compute. reflexivity.
  - reflexivity.
  - reflexivity.
Qed.

(** The same run, for the uncertainty: the entry written for gene 1 is the
    formula on the rates of gene 0, [5.8125], where the entries of gene 1,
    [beta_g = 7] with standard deviation [1.125] and [gamma_g = 1] with
    standard deviation [6], give [20.875]. *)
Lemma export_posterior_velocity_sd_flat_rates :
  let beta := NdArray [2] [2; 7]%float in
  let beta_sd := NdArray [2] [0.5; 1.125]%float in
  let gamma := NdArray [2] [1; 1]%float in
  let gamma_sd := NdArray [2] [1.25; 6]%float in
  let mu := NdArray [1; 2; 2] [3; 1; 3; 1]%float in
  let mu_sd := NdArray [1; 2; 2] [2; 2.25; 2; 2.25]%float in
  let run := export_posterior (sampler posterior_flat) model_flat
               summaries_only "mod" false false store_flat in
  means_flat !! "beta_g" = Some beta ∧ stds_flat !! "beta_g" = Some beta_sd ∧
  means_flat !! "gamma_g" = Some gamma ∧
  stds_flat !! "gamma_g" = Some gamma_sd ∧
  means_flat !! "mu_RNAvelocity" = Some mu ∧
  stds_flat !! "mu_RNAvelocity" = Some mu_sd ∧
  returned run.1 ∧ accepted (adata run.2) ∧
  layers (adata run.2) !! "velocity_sd"
    = Some (NdArray [1; 2] [5.8125; 5.8125]%float) ∧
  documented_velocity_sd
    (get beta [1]) (get beta_sd [1]) (get mu [0; 1; 0]) (get mu_sd [0; 1; 0])
    (get gamma [1]) (get gamma_sd [1]) (get mu [0; 1; 1])
    (get mu_sd [0; 1; 1])
    = 20.875%float ∧
  PrimFloat.eqb 5.8125 20.875 = false.
Proof.
  cbv zeta. split_and!; [reflexivity..| | | | |].
  - vm_compute. exact I.
  - unfold accepted. split_and!; apply map_Forall_to_list; vm_compute;
      repeat constructor.
  - vm_compute. reflexivity.
  - reflexivity.
  - reflexivity.
Qed.



(** * Further properties of the methods *)

(** ** Errors of the dictionary reads and of the indexing *)

Module ErrorFacts.

Lemma getitem_raise {A} (d : gmap string A) k e :
  getitem d k = Raise e → e = KeyError k ∧ d !! k = None.
Proof. unfold getitem. destruct (d !! k); [done|]. by intros [= <-]. Qed.

Lemma getitem_ok {A} (d : gmap string A) k v :
  getitem d k = Ok v → d !! k = Some v.
Proof. unfold getitem. destruct (d !! k); [|done]. by intros [= <-]. Qed.

Lemma getitem_lookup {A} (d : gmap string A) k v :
  d !! k = Some v → getitem d k = Ok v.
Proof. unfold getitem. by intros ->. Qed.

Lemma getitem_missing {A} (d : gmap string A) k :
  d !! k = None → getitem d k = Raise (KeyError k).
Proof. unfold getitem. by intros ->. Qed.

Lemma take_axis_raise ax k a e : take_axis ax k a = Raise e → e = IndexError.
Proof.
  unfold take_axis. destruct (shape a !! ax); [|by intros [= <-]].
  case_decide; [done|]. by intros [= <-].
Qed.

Lemma index_third_raise k a e : index_third k a = Raise e → e = IndexError.
Proof. apply take_axis_raise. Qed.

Lemma index_rows_raise ind a e : index_rows ind a = Raise e → e = IndexError.
Proof.
  unfold index_rows. destruct ind as [rows|], (shape a) as [|d [|d' sh]];
    try (by intros [= <-]); try done.
  case_decide; [done|]. by intros [= <-].
Qed.

(** [a[None, :]] on a dense array: the same buffer under a new leading
    axis. *)
Lemma index_rows_none a U :
  index_rows None a = Ok U → U = NdArray (1 :: shape a) (data a).
Proof.
  unfold index_rows. destruct (shape a); [done|]. by intros [= <-].
Qed.

(** [a[rows, :]] on a matrix: the rows gathered in the order of [rows]. *)
Lemma index_rows_some rows a C n_genes U :
  shape a = [C; n_genes] → index_rows (Some rows) a = Ok U →
  shape U = [length rows; n_genes] ∧ Forall (λ r, r < C) rows ∧
  ∀ i r g, rows !! i = Some r → g < n_genes →
    get U [i; g] = get a [r; g].
Proof.
  unfold index_rows. intros ->. case_decide; [|done]. intros [= <-].
  split; [done|]. split; [done|]. intros i r g Hi Hg.
  rewrite NdFacts.get_tabulate.
  - by rewrite Hi.
  - repeat constructor; [|done]. by eapply lookup_lt_Some.
Qed.

End ErrorFacts.

(** ** Square roots and differences of equal numbers *)

Module RootFacts.

Import FloatFacts MinFacts.
Local Open Scope Z_scope.

Lemma SFsqrt_not_negative x : sf_not_negative (SF64sqrt x) = true.
Proof.
  destruct x as [s|[]| |[] m e]; try done.
  unfold SF64sqrt, SFsqrt.
  destruct (SFsqrt_core_binary prec emax (Z.pos m) e) as [[mz ez] lz] eqn:E.
  assert (0 <= mz) as Hmz.
  { unfold SFsqrt_core_binary in E.
    match type of E with
    | (let (q, r) := Z.sqrtrem ?m' in _) = _ =>
        destruct (Z.sqrtrem m') as [q r] eqn:Eq
    end.
    injection E as <- _ _.
    match type of Eq with
    | Z.sqrtrem ?m' = _ =>
        assert (q = Z.sqrt m') as -> by
          (rewrite <- Z.sqrtrem_sqrt; by rewrite Eq)
    end.
    apply Z.sqrt_nonneg. }
  pose proof (binary_round_aux_nonneg prec emax mz ez lz Hmz) as H.
  unfold sf_not_negative. by destruct (binary_round_aux _ _ _ _ _ _).
Qed.

(** A square root is never below zero: it is zero, positive or NaN. *)
Lemma sqrt_not_negative x : PrimFloat.ltb (PrimFloat.sqrt x) 0 = false.
Proof.
  rewrite FloatAxioms.ltb_spec, FloatAxioms.sqrt_spec.
  change (Prim2SF 0) with (S754_zero false).
  apply sf_not_negative_ltb, SFsqrt_not_negative.
Qed.

Lemma SFsub_diag x : sf_finite x = true → SF64sub x x = S754_zero false.
Proof.
  destruct x as [[]|s| |s m e]; try done. intros _.
  unfold SF64sub, SFsub. by rewrite Z.sub_diag.
Qed.

(** [x - x] is [+0] for a finite [x]. *)
Lemma sub_diag x : PrimFloat.is_finite x = true → PrimFloat.sub x x = 0%float.
Proof.
  intros H%is_finite_sf.
  rewrite <- (SF2Prim_Prim2SF (PrimFloat.sub x x)), FloatAxioms.sub_spec.
  by rewrite SFsub_diag.
Qed.

End RootFacts.

(** ** Tactics for the ends of a run *)

(** What the reads of [self.samples] and [self.expected_nb_param] found. *)
Ltac store_facts :=
  repeat match goal with
         | H : self_samples _ = _ |- _ =>
             progress cbv beta iota delta [self_samples] in H
         | H : self_expected_nb_param _ = _ |- _ =>
             progress cbv beta iota delta [self_expected_nb_param] in H
         | H : Some _ = None |- _ => discriminate H
         | H : None = Some _ |- _ => discriminate H
         | H : Some _ = Some _ |- _ => injection H as ?; subst
         end.

(** What the read of [adata.uns[export_slot]] found, just after its
    assignment. *)
Ltac uns_slot_facts :=
  repeat match goal with
         | H : getitem (uns _) _ = _ |- _ =>
             cbv beta iota delta [adata] in H;
             rewrite getitem_set_uns in H;
             first [discriminate H | injection H as ?; subst]
         | H : UDict _ = UDict _ |- _ => injection H as ?; subst
         | H : _ = UArray _ |- _ => discriminate H
         | H : UArray _ = _ |- _ => discriminate H
         end.

(** The exception of a failed read or index. *)
Ltac raise_kind :=
  repeat match goal with
         | H : getitem _ _ = Raise ?e |- _ =>
             is_var e; apply ErrorFacts.getitem_raise in H as [-> ?]
         | H : index_rows _ _ = Raise ?e |- _ =>
             is_var e; apply ErrorFacts.index_rows_raise in H as ->
         | H : index_third _ _ = Raise ?e |- _ =>
             is_var e; apply ErrorFacts.index_third_raise in H as ->
         end.

Ltac not_in_list H :=
  repeat (apply not_elem_of_cons in H as [? H]).

(** Two chains of dictionary stores hold the same entries. *)
Ltac same_entries :=
  apply map_eq; intros ?; repeat rewrite lookup_insert;
  by repeat (case_decide; try done).

(** ** The record of [_export2adata] *)

Section RecordFacts.

Context {G : Type}.

Lemma export2adata_run self smp (w : world G) :
  _export2adata self smp w =
    ((let? means := getitem smp "post_sample_means" in
      let? stds := getitem smp "post_sample_stds" in
      let? q05 := getitem smp "post_sample_q05" in
      let? q95 := getitem smp "post_sample_q95" in
      Ok (<["model_name" := RStr (module_class_name self)]>
          (<["date" := RStr (today w)]>
          (<["var_names" := RNames (var_names (self_adata self))]>
          (<["obs_names" := RNames (obs_names (self_adata self))]>
          (<["post_sample_means" := RSummary means]>
          (<["post_sample_stds" := RSummary stds]>
          (<["post_sample_q05" := RSummary q05]>
          (<["post_sample_q95" := RSummary q95]> ∅)))))))))%err, w).
Proof.
  unfold _export2adata, bind, gets, lift, ret, ebind.
  by repeat case_match.
Qed.

(** X1. [_export2adata] never changes the store. It returns when the samples
    hold the four summaries, and otherwise raises [KeyError] for the first
    one that is missing, in the order means, stds, q05, q95. *)
Theorem export2adata_outcome self (samples : samples_dict) (w : world G) :
  let run := _export2adata self samples w in
  run.2 = w ∧
  match first_missing samples summary_keys with
  | Some k => run.1 = Raise (KeyError k)
  | None => returned run.1
  end.
Proof.
  unfold _export2adata, bind, gets, lift, ret, getitem, first_missing,
    summary_keys.
  cbn [filter list_filter].
  destruct (samples !! "post_sample_means") eqn:E1;
    [rewrite decide_False by (intros H; apply H; eauto)
    |by rewrite decide_True by (by intros [? ?])].
  destruct (samples !! "post_sample_stds") eqn:E2;
    [rewrite decide_False by (intros H; apply H; eauto)
    |by rewrite decide_True by (by intros [? ?])].
  destruct (samples !! "post_sample_q05") eqn:E3;
    [rewrite decide_False by (intros H; apply H; eauto)
    |by rewrite decide_True by (by intros [? ?])].
  destruct (samples !! "post_sample_q95") eqn:E4;
    [rewrite decide_False by (intros H; apply H; eauto)
    |by rewrite decide_True by (by intros [? ?])].
  done.
Qed.

(** X2. On samples that hold the four summaries, [_export2adata] returns a
    record with exactly eight keys: the class name of the module, the date
    of the day, the list of the gene names of [self.adata] under
    ["var_names"] and the list of its cell names under ["obs_names"], as
    many as it has genes and cells, and the four summaries as they are. *)
Theorem export2adata_record self (samples : samples_dict) means stds q05 q95
    (w : world G) :
  samples !! "post_sample_means" = Some means →
  samples !! "post_sample_stds" = Some stds →
  samples !! "post_sample_q05" = Some q05 →
  samples !! "post_sample_q95" = Some q95 →
  ∃ record,
    _export2adata self samples w = (Ok record, w) ∧
    dom record = list_to_set record_keys ∧
    record !! "model_name" = Some (RStr (module_class_name self)) ∧
    record !! "date" = Some (RStr (today w)) ∧
    (∃ genes, record !! "var_names" = Some (RNames genes) ∧
              genes = var_names (self_adata self) ∧
              length genes = n_vars (self_adata self)) ∧
    (∃ cells, record !! "obs_names" = Some (RNames cells) ∧
              cells = obs_names (self_adata self) ∧
              length cells = n_obs (self_adata self)) ∧
    record !! "post_sample_means" = Some (RSummary means) ∧
    record !! "post_sample_stds" = Some (RSummary stds) ∧
    record !! "post_sample_q05" = Some (RSummary q05) ∧
    record !! "post_sample_q95" = Some (RSummary q95).
Proof.
  intros Hm Hs H5 H95.
  unfold _export2adata, bind, gets, lift, ret, getitem.
  rewrite Hm, Hs, H5, H95. eexists. split; [reflexivity|].
  split.
  { rewrite !dom_insert_L, dom_empty_L. unfold record_keys, summary_keys.
    cbn [app list_to_set]. done. }
  split_and!; try (eexists; split; [|split; reflexivity]);
    by repeat (rewrite lookup_insert_ne by done); rewrite lookup_insert_eq.
Qed.

End RecordFacts.

(** ** Runs of [normalize] *)

Section NormalizeRuns.

Context {G : Type}.

Lemma normalize_run (means : summary) r (w : world G) Xu U Xs S :
  corrected (unspliced r) (get_dummies (batch r)) means "detection_y_cu" 0
    = Ok Xu →
  shift_to_zero Xu = Ok U →
  corrected (spliced r) (get_dummies (batch r)) means "detection_y_cs" 1
    = Ok Xs →
  shift_to_zero Xs = Ok S →
  normalize means r w =
    (Ok tt, with_adata (λ a, set_layer "spliced_norm" S
                               (set_layer "unspliced_norm" U a)) w).
Proof.
  intros H1 H2 H3 H4. unfold normalize, bind, lift, modify.
  rewrite H1, H2, H3, H4. by destruct w.
Qed.


(** X4. [normalize] is not atomic. When the unspliced half succeeds and the
    posterior means lack ["detection_y_cs"], it raises [KeyError] with the
    layer [unspliced_norm] already written to the data object. *)
Theorem normalize_partial_write (samples : summary) r Xu U (w : world G) :
  corrected (unspliced r) (get_dummies (batch r)) samples "detection_y_cu" 0
    = Ok Xu →
  shift_to_zero Xu = Ok U →
  samples !! "detection_y_cs" = None →
  normalize samples r w =
    (Raise (KeyError "detection_y_cs"),
     with_adata (set_layer "unspliced_norm" U) w).
Proof.
  intros H1 H2 H3. unfold normalize, bind, lift, modify.
  rewrite H1, H2. unfold corrected at 1, getitem. by rewrite H3.
Qed.

(** X5. On a data set without cells, with posterior means of matching
    shapes, [normalize] raises [ValueError], the minimum of an empty matrix,
    and writes nothing. *)
Theorem normalize_no_cells n_genes K (samples : summary) r du sg
    (w : world G) :
  shape (unspliced r) = [0; n_genes] → batch r = [] →
  samples !! "detection_y_cu" = Some du →
  efficiency_layout 0 n_genes (shape du) →
  samples !! "s_g_gene_add" = Some sg →
  shape sg = [0; n_genes; K] → 0 < K →
  normalize samples r w = (Raise ValueError, w).
Proof.
  intros Su Hb Hdu Ldu Hsg Ssg HK.
  destruct (corrected_entries 0 n_genes 0 K 0
              (unspliced r) (batch r) samples
              "detection_y_cu" du sg) as (Xu & EXu & WXu & SXu & _);
    try done; try (by rewrite Hb).
  unfold normalize, bind, lift. rewrite EXu.
  unfold shift_to_zero, amin.
  unfold well_formed in WXu. rewrite SXu in WXu. simpl in WXu.
  by destruct (data Xu).
Qed.

(** X6. Whatever its outcome, [normalize] changes nothing but the layers
    [unspliced_norm] and [spliced_norm] of the data object. *)
Theorem normalize_frame (samples : summary) r (w : world G) :
  let run := normalize samples r w in
  self_samples run.2 = self_samples w ∧
  self_expected_nb_param run.2 = self_expected_nb_param w ∧
  entropy run.2 = entropy w ∧ trace run.2 = trace w ∧
  obs_names (adata run.2) = obs_names (adata w) ∧
  var_names (adata run.2) = var_names (adata w) ∧
  obs (adata run.2) = obs (adata w) ∧ var (adata run.2) = var (adata w) ∧
  uns (adata run.2) = uns (adata w) ∧
  ∀ k, k ∉ ["unspliced_norm"; "spliced_norm"] →
    layers (adata run.2) !! k = layers (adata w) !! k.
Proof.
  unfold normalize, bind, lift, modify.
  destruct w as [ss ex ad td en tr].
  repeat case_match; simplify_eq; cbn; split_and!; try done;
    intros k Hk; not_in_list Hk;
    by rewrite ?lookup_insert_ne by done.
Qed.

End NormalizeRuns.

(** ** Runs of [export_posterior] *)

Section ExportRuns.

Context {G : Type}.
Variable sample_posterior : gmap string kwval → G → option samples_dict * G.

Lemma bind_run {A B} (m : M G A) (k : A → M G B) w :
  bind m k w =
    match m w with
    | (Ok a, w') => k a w'
    | (Raise e, w') => (Raise e, w')
    end.
Proof. done. Qed.

Lemma call_sample_posterior_run kw (w : world G) :
  call_sample_posterior sample_posterior kw w =
    match sample_posterior kw (entropy w) with
    | (Some s, g) =>
        (Ok s, with_entropy g (with_event (SamplePosterior kw) w))
    | (None, g) =>
        (Raise (ExternalError "sample_posterior"),
         with_entropy g (with_event (SamplePosterior kw) w))
    end.
Proof. done. Qed.

(** What holds at the end of every run of the export, returning or not. *)
Lemma export_posterior_outcome self arg slot fvp norm (w : world G) :
  let run := export_posterior sample_posterior self arg slot fvp norm w in
  ((∃ rest,
      trace run.2 = trace w ++ SamplePosterior (kwargs_of arg) :: rest ∧
      Forall (λ e, is_sample_call e = false) rest) ∧
   match (sample_posterior (kwargs_of arg) (entropy w)).1 with
   | Some smp => self_samples run.2 = Some smp
   | None => run.1 = Raise (ExternalError "sample_posterior") ∧
             self_samples run.2 = self_samples w ∧ adata run.2 = adata w
   end) ∧
  obs_names (adata run.2) = obs_names (adata w) ∧
  var_names (adata run.2) = var_names (adata w) ∧
  (∀ k, k ∉ obs_columns.*1 → obs (adata run.2) !! k = obs (adata w) !! k) ∧
  (∀ k, k ∉ var_columns.*1 → var (adata run.2) !! k = var (adata w) !! k) ∧
  (∀ k, k ∉ export_layers norm →
     layers (adata run.2) !! k = layers (adata w) !! k) ∧
  (∀ k, k ∉ [slot; "velocity_posterior"] →
     uns (adata run.2) !! k = uns (adata w) !! k) ∧
  self_expected_nb_param run.2 = self_expected_nb_param w ∧
  today run.2 = today w.
Proof.
  change (run_post (export_posterior sample_posterior self arg slot fvp norm)
            (λ r w',
               ((∃ rest,
                   trace w' =
                     trace w ++ SamplePosterior (kwargs_of arg) :: rest ∧
                   Forall (λ e, is_sample_call e = false) rest) ∧
                match (sample_posterior (kwargs_of arg) (entropy w)).1 with
                | Some smp => self_samples w' = Some smp
                | None => r = Raise (ExternalError "sample_posterior") ∧
                          self_samples w' = self_samples w ∧
                          adata w' = adata w
                end) ∧
               obs_names (adata w') = obs_names (adata w) ∧
               var_names (adata w') = var_names (adata w) ∧
               (∀ k, k ∉ obs_columns.*1 →
                  obs (adata w') !! k = obs (adata w) !! k) ∧
               (∀ k, k ∉ var_columns.*1 →
                  var (adata w') !! k = var (adata w) !! k) ∧
               (∀ k, k ∉ export_layers norm →
                  layers (adata w') !! k = layers (adata w) !! k) ∧
               (∀ k, k ∉ [slot; "velocity_posterior"] →
                  uns (adata w') !! k = uns (adata w) !! k) ∧
               self_expected_nb_param w' = self_expected_nb_param w ∧
               today w' = today w) w).
  destruct w as [ss ex ad td en tr].
  unfold export_posterior.
  repeat run_step.
  all: store_facts.
  all: cbv beta iota delta [self_samples adata trace entropy today
                            self_expected_nb_param].
  all: cbn [fst obs_names var_names obs var uns layers
            set_obs set_var set_uns set_layer].
  all: split;
    [split; [|done]; rewrite <- ?app_assoc; eexists;
     (split; [reflexivity|]); by repeat constructor|].
  all: split_and!; try done.
  all: intros k Hk;
    cbv [obs_columns var_columns export_layers fmap list_fmap fst] in Hk;
    not_in_list Hk;
    by rewrite ?lookup_insert_ne by done.
Qed.

(** What a returning export has written. *)
Lemma export_posterior_written self arg slot fvp norm smp g0 (w : world G) :
  let run := export_posterior sample_posterior self arg slot fvp norm w in
  sample_posterior (kwargs_of arg) (entropy w) = (Some smp, g0) →
  returned run.1 →
  ∃ record rs stored means,
    (_export2adata self smp w).1 = Ok record ∧
    kwargs_of arg !! "return_samples" = Some rs ∧
    smp !! "post_sample_means" = Some means ∧
    (truthy rs = false → stored = record) ∧
    (truthy rs = true →
     ∃ ps, smp !! "posterior_samples" = Some ps ∧
           stored = <["post_samples" := RSummary ps]> record) ∧
    (truthy rs && fvp = false →
     uns (adata run.2) = <[slot := UDict stored]> (uns (adata w))) ∧
    (truthy rs && fvp = true →
     ∃ vp, velocity_posterior_rhs smp = Ok vp ∧
       uns (adata run.2) =
         <["velocity_posterior" := UArray vp]>
           (<[slot := UDict stored]> (uns (adata w)))) ∧
    trace run.2 =
      trace w ++ SamplePosterior (kwargs_of arg) ::
                 export_prints (truthy rs) fvp norm ∧
    entropy run.2 = g0 ∧
    Forall (column_of smp (obs (adata run.2))) obs_columns ∧
    Forall (column_of smp (var (adata run.2))) var_columns ∧
    (norm = false →
     layers (adata run.2) !! "unspliced_norm"
       = layers (adata w) !! "unspliced_norm" ∧
     layers (adata run.2) !! "spliced_norm"
       = layers (adata w) !! "spliced_norm") ∧
    (norm = true →
     ∀ w0 : world G,
       let norm_run := normalize means (adata_manager self) w0 in
       returned norm_run.1 ∧
       layers (adata run.2) !! "unspliced_norm"
         = layers (adata norm_run.2) !! "unspliced_norm" ∧
       layers (adata run.2) !! "spliced_norm"
         = layers (adata norm_run.2) !! "spliced_norm").
Proof.
  intros run Hsp. subst run.
  change (run_post (export_posterior sample_posterior self arg slot fvp norm)
            (λ r w', returned r →
  ∃ record rs stored means,
    (_export2adata self smp w).1 = Ok record ∧
    kwargs_of arg !! "return_samples" = Some rs ∧
    smp !! "post_sample_means" = Some means ∧
    (truthy rs = false → stored = record) ∧
    (truthy rs = true →
     ∃ ps, smp !! "posterior_samples" = Some ps ∧
           stored = <["post_samples" := RSummary ps]> record) ∧
    (truthy rs && fvp = false →
     uns (adata w') = <[slot := UDict stored]> (uns (adata w))) ∧
    (truthy rs && fvp = true →
     ∃ vp, velocity_posterior_rhs smp = Ok vp ∧
       uns (adata w') =
         <["velocity_posterior" := UArray vp]>
           (<[slot := UDict stored]> (uns (adata w)))) ∧
    trace w' =
      trace w ++ SamplePosterior (kwargs_of arg) ::
                 export_prints (truthy rs) fvp norm ∧
    entropy w' = g0 ∧
    Forall (column_of smp (obs (adata w'))) obs_columns ∧
    Forall (column_of smp (var (adata w'))) var_columns ∧
    (norm = false →
     layers (adata w') !! "unspliced_norm"
       = layers (adata w) !! "unspliced_norm" ∧
     layers (adata w') !! "spliced_norm"
       = layers (adata w) !! "spliced_norm") ∧
    (norm = true →
     ∀ w0 : world G,
       let norm_run := normalize means (adata_manager self) w0 in
       returned norm_run.1 ∧
       layers (adata w') !! "unspliced_norm"
         = layers (adata norm_run.2) !! "unspliced_norm" ∧
       layers (adata w') !! "spliced_norm"
         = layers (adata norm_run.2) !! "spliced_norm")) w).
  destruct w as [ss ex ad td en tr]. simpl in Hsp.
  unfold export_posterior.
  repeat run_step.
  all: intros Hret; try done.
  all: clear Hret.
  all: store_facts.
  all: uns_slot_facts.
  all: cbv beta iota delta [self_samples adata trace entropy today
                            self_expected_nb_param].
  all: rewrite export2adata_run; cbv beta iota delta [today]; cbn [fst].
  all: repeat match goal with
              | H : getitem _ _ = Ok _ |- _ =>
                  rewrite H; cbv beta iota delta [ebind]
              end.
  all: try match goal with
           | H : truthy ?r = _, H' : truthy ?r && _ = _ |- _ =>
               rewrite H in H'; cbn [andb] in H'
           end.
  all: try discriminate.
  all: subst.
  all: match goal with
       | M : getitem _ "post_sample_means" = Ok ?m,
         S : getitem _ "post_sample_stds" = Ok ?s,
         Q5 : getitem _ "post_sample_q05" = Ok ?q5,
         Q95 : getitem _ "post_sample_q95" = Ok ?q95 |- _ =>
           pose (R := <["model_name" := RStr (module_class_name self)]>
                      (<["date" := RStr td]>
                      (<["var_names" := RNames (var_names (self_adata self))]>
                      (<["obs_names" := RNames (obs_names (self_adata self))]>
                      (<["post_sample_means" := RSummary m]>
                      (<["post_sample_stds" := RSummary s]>
                      (<["post_sample_q05" := RSummary q5]>
                      (<["post_sample_q95" := RSummary q95]>
                         (∅ : gmap string rec_value)))))))));
           exists R;
           match goal with
           | H : truthy ?rs = true,
             P : getitem _ "posterior_samples" = Ok ?ps |- _ =>
               exists rs, (<["post_samples" := RSummary ps]> R), m
           | H : truthy ?rs = false |- _ =>
               exists rs, R, m
           end; subst R
       end.
  all: repeat match goal with
              | H : getitem _ _ = Ok _ |- _ => apply ErrorFacts.getitem_ok in H
              end.
  all: cbn [obs var uns layers set_obs set_var set_uns set_layer].
  all: match goal with H : truthy _ = _ |- _ => rewrite H end.
  all: cbn [andb export_prints app].
  all: split_and!; try done; try (intros; congruence).
  all: try (intros _; by eexists).
  all: try (intros _; by rewrite ?insert_insert_eq).
  all: try (intros _; eexists; split; [done|]; by rewrite ?insert_insert_eq).
  all: try (by rewrite <- !app_assoc).
  all: try (intros _; split; by rewrite !lookup_insert_ne by done).
  all: try (unfold obs_columns, var_columns; repeat constructor;
            unfold column_of; cbn [fst snd]; eexists;
            (split; [eassumption|]);
            rewrite ?lookup_insert_ne by done; apply lookup_insert_eq).
  all: intros _ w0; cbv zeta;
    match goal with
    | H1 : corrected (unspliced _) _ _ _ _ = Ok ?Xu,
      H2 : shift_to_zero ?Xu = Ok _,
      H3 : corrected (spliced _) _ _ _ _ = Ok ?Xs,
      H4 : shift_to_zero ?Xs = Ok _ |- _ =>
        rewrite (normalize_run _ _ w0 _ _ _ _ H1 H2 H3 H4)
    end;
    cbn [fst snd]; (split; [done|]);
    cbv beta iota delta [with_adata snd];
    cbn [layers set_layer].
  all: split.
  all: repeat rewrite lookup_insert.
  all: by repeat (case_decide; try done).
Qed.

(** X7. When [sample_kwargs] has no ["return_samples"] entry, as when it is
    left to its default [None] or is not a dictionary, and the sampler
    returns samples with the four summaries, [export_posterior] raises
    [KeyError('return_samples')]. By then [self.samples] is bound to the new
    samples and [adata.uns[export_slot]] holds the record; nothing else of
    the data object has changed. *)
Theorem export_posterior_missing_return_samples self arg slot fvp norm
    smp g0 means stds q05 q95 (w : world G) :
  let run := export_posterior sample_posterior self arg slot fvp norm w in
  kwargs_of arg !! "return_samples" = None →
  sample_posterior (kwargs_of arg) (entropy w) = (Some smp, g0) →
  smp !! "post_sample_means" = Some means →
  smp !! "post_sample_stds" = Some stds →
  smp !! "post_sample_q05" = Some q05 →
  smp !! "post_sample_q95" = Some q95 →
  run.1 = Raise (KeyError "return_samples") ∧
  self_samples run.2 = Some smp ∧
  ∃ record, (_export2adata self smp w).1 = Ok record ∧
    adata run.2 = set_uns slot (UDict record) (adata w).
Proof.
  intros run Hrs Hsp Hm Hs H5 H95. subst run.
  change (run_post (export_posterior sample_posterior self arg slot fvp norm)
            (λ r w', r = Raise (KeyError "return_samples") ∧
               self_samples w' = Some smp ∧
               ∃ record, (_export2adata self smp w).1 = Ok record ∧
                 adata w' = set_uns slot (UDict record) (adata w)) w).
  apply ErrorFacts.getitem_missing in Hrs.
  apply ErrorFacts.getitem_lookup in Hm, Hs, H5, H95.
  destruct w as [ss ex ad td en tr]. simpl in Hsp.
  unfold export_posterior.
  repeat run_step.
  all: store_facts.
  cbv beta iota delta [self_samples adata].
  split; [done|]. split; [done|]. eexists. split; [|reflexivity].
  rewrite export2adata_run. cbn [fst]. by rewrite Hm, Hs, H5, H95.
Qed.


(** X9. The samples cached in [self.samples] by an earlier call have no
    influence on [export_posterior]: from two stores that differ only in the
    cached samples it has the same outcome and leaves the same data object,
    and the same store altogether when the sampler returns. *)
Theorem export_posterior_ignores_cache self arg slot fvp norm
    cached cached' ex ad td en tr :
  let run := export_posterior sample_posterior self arg slot fvp norm
               (mkWorld cached ex ad td en tr) in
  let run' := export_posterior sample_posterior self arg slot fvp norm
                (mkWorld cached' ex ad td en tr) in
  run.1 = run'.1 ∧ adata run.2 = adata run'.2 ∧
  (is_Some (sample_posterior (kwargs_of arg) en).1 → run.2 = run'.2).
Proof.
  unfold export_posterior. cbv zeta.
  rewrite !bind_run, !call_sample_posterior_run. cbn [entropy].
  destruct (sample_posterior (kwargs_of arg) en) as [[s|] g]; cbn [fst].
  - rewrite !bind_run. unfold modify at 1 3.
    cbv beta iota delta [with_samples with_entropy with_event self_samples
                         self_expected_nb_param adata today entropy trace].
    done.
  - split; [done|]. split; [done|]. by intros [? [=]].
Qed.

(** X10. Whatever its outcome, [export_posterior] keeps the cell and gene
    names, every per-cell and per-gene column other than the six and ten it
    exports, every layer other than [velocity], [velocity_sd] and, with
    [normalize], the two normalised layers, every unstructured entry other
    than the export slot and [velocity_posterior], and
    [self.expected_nb_param]. *)
Theorem export_posterior_frame self arg slot fvp norm (w : world G) :
  let run := export_posterior sample_posterior self arg slot fvp norm w in
  obs_names (adata run.2) = obs_names (adata w) ∧
  var_names (adata run.2) = var_names (adata w) ∧
  (∀ k, k ∉ obs_columns.*1 → obs (adata run.2) !! k = obs (adata w) !! k) ∧
  (∀ k, k ∉ var_columns.*1 → var (adata run.2) !! k = var (adata w) !! k) ∧
  (∀ k, k ∉ export_layers norm →
     layers (adata run.2) !! k = layers (adata w) !! k) ∧
  (∀ k, k ∉ [slot; "velocity_posterior"] →
     uns (adata run.2) !! k = uns (adata w) !! k) ∧
  self_expected_nb_param run.2 = self_expected_nb_param w.
Proof.
  intros run.
  destruct (export_posterior_outcome self arg slot fvp norm w)
    as (_ & H1 & H2 & H3 & H4 & H5 & H6 & H7 & _).
  by split_and!.
Qed.

(** X11. With a falsy ["return_samples"], a returning export changes
    [adata.uns] at the export slot only, which holds the record of
    [_export2adata] and no raw samples, also when [full_velocity_posterior]
    is set; it prints no warning. *)
Theorem export_posterior_summaries_only self arg slot fvp norm smp g0 rs
    (w : world G) :
  let run := export_posterior sample_posterior self arg slot fvp norm w in
  sample_posterior (kwargs_of arg) (entropy w) = (Some smp, g0) →
  kwargs_of arg !! "return_samples" = Some rs → truthy rs = false →
  returned run.1 →
  ∃ record,
    (_export2adata self smp w).1 = Ok record ∧
    uns (adata run.2) = <[slot := UDict record]> (uns (adata w)) ∧
    trace run.2 =
      trace w ++ SamplePosterior (kwargs_of arg) ::
                 (if norm then [Print MsgComputingNormalized] else []).
Proof.
  intros run Hsp Hrs Ht Hret.
  destruct (export_posterior_written _ _ _ _ _ _ _ _ Hsp Hret)
    as (record & rs' & stored & means & Hrec & Hrs' & _ & Hf & _ & Hu & _ &
        Htr & _).
  rewrite Hrs in Hrs'. injection Hrs' as <-.
  rewrite Ht in Hu, Htr. specialize (Hf Ht) as ->.
  exists record. split; [done|]. split; [by apply Hu|]. exact Htr.
Qed.

(** X12. With a truthy ["return_samples"], a returning export has stored in
    the export slot the record of [_export2adata] with the raw samples
    [self.samples['posterior_samples']] added under ['post_samples'], and
    printed the warning; [adata.uns['velocity_posterior']] is assigned
    exactly when [full_velocity_posterior] is set. For raw samples of
    [beta_g] and [gamma_g] of shape draws by one by genes by components and
    of [mu_RNAvelocity] of shape draws by cells by genes by at least two
    components, the array assigned is draws by cells by genes and its entry
    at draw [s], cell [c] and gene [g] is
    [beta_g[s, 0, g, 0] * mu[s, c, g, 0] - gamma_g[s, 0, g, 0] * mu[s, c, g, 1]]. *)
Theorem export_posterior_all_samples self arg slot fvp norm smp g0 rs
    (w : world G) :
  let run := export_posterior sample_posterior self arg slot fvp norm w in
  sample_posterior (kwargs_of arg) (entropy w) = (Some smp, g0) →
  kwargs_of arg !! "return_samples" = Some rs → truthy rs = true →
  returned run.1 →
  ∃ record ps,
    (_export2adata self smp w).1 = Ok record ∧
    smp !! "posterior_samples" = Some ps ∧
    let stored := UDict (<["post_samples" := RSummary ps]> record) in
    (if fvp
     then ∃ vp,
            uns (adata run.2) =
              <["velocity_posterior" := UArray vp]>
                (<[slot := stored]> (uns (adata w))) ∧
            ∀ b gm mu S C n_genes K d d',
              ps !! "beta_g" = Some b → ps !! "gamma_g" = Some gm →
              ps !! "mu_RNAvelocity" = Some mu →
              shape b = [S; 1; n_genes; d] → 0 < d →
              shape gm = [S; 1; n_genes; d'] → 0 < d' →
              shape mu = [S; C; n_genes; K] → (2 ≤ K)%nat →
              shape vp = [S; C; n_genes] ∧
              ∀ s c g, s < S → c < C → g < n_genes →
                get vp [s; c; g] =
                  PrimFloat.sub
                    (PrimFloat.mul (get b [s; 0; g; 0])
                                   (get mu [s; c; g; 0]))
                    (PrimFloat.mul (get gm [s; 0; g; 0])
                                   (get mu [s; c; g; 1]))
     else uns (adata run.2) = <[slot := stored]> (uns (adata w))) ∧
    trace run.2 =
      trace w ++ SamplePosterior (kwargs_of arg) ::
                 export_prints true fvp norm.
Proof.
  intros run Hsp Hrs Ht Hret.
  destruct (export_posterior_written _ _ _ _ _ _ _ _ Hsp Hret)
    as (record & rs' & stored & means & Hrec & Hrs' & _ & _ & Hs & Hu & Hv &
        Htr & _).
  rewrite Hrs in Hrs'. injection Hrs' as <-.
  rewrite Ht in Hu, Hv, Htr. destruct (Hs Ht) as (ps & Hps & ->).
  exists record, ps. split; [done|]. split; [done|]. cbv zeta.
  split; [|exact Htr].
  destruct fvp; [|by apply Hu].
  destruct (Hv eq_refl) as (vp & Hvp & Huns).
  exists vp. split; [exact Huns|].
  intros b gm mu S C n_genes K d d' Hb Hgm Hmu Sb Hd Sgm Hd' Smu HK.
  destruct (velocity_posterior_rhs_entries S C n_genes K d d' smp ps b gm mu
              Hps Hb Hgm Hmu Sb Hd Sgm Hd' Smu HK) as (vp' & Hvp' & Svp & Evp).
  assert (vp' = vp) as -> by congruence.
  by split.
Qed.

(** X13. A returning export has written each of the six per-cell columns
    and of the ten per-gene columns as the array of the posterior means or
    standard deviations of its parameter, in the samples it drew, flattened:
    a single axis with all the entries of the array in row-major order. *)
Theorem export_posterior_columns self arg slot fvp norm smp g0
    (w : world G) :
  let run := export_posterior sample_posterior self arg slot fvp norm w in
  sample_posterior (kwargs_of arg) (entropy w) = (Some smp, g0) →
  returned run.1 →
  Forall (column_of smp (obs (adata run.2))) obs_columns ∧
  Forall (column_of smp (var (adata run.2))) var_columns.
Proof.
  intros run Hsp Hret.
  destruct (export_posterior_written _ _ _ _ _ _ _ _ Hsp Hret)
    as (record & rs' & stored & means & _ & _ & _ & _ & _ & _ & _ & _ & _ &
        Hobs & Hvar & _).
  by split.
Qed.

(** X14. A returning export with [normalize] set has the two normalised
    layers that [normalize] computes from the posterior means of the
    samples it drew; without [normalize] it leaves the two layers as they
    were. *)
Theorem export_posterior_normalized_layers self arg slot fvp norm smp g0
    (w : world G) :
  let run := export_posterior sample_posterior self arg slot fvp norm w in
  sample_posterior (kwargs_of arg) (entropy w) = (Some smp, g0) →
  returned run.1 →
  ∃ means, smp !! "post_sample_means" = Some means ∧
    let norm_run := normalize means (adata_manager self) w in
    let written := if norm then adata norm_run.2 else adata w in
    (norm = true → returned norm_run.1) ∧
    layers (adata run.2) !! "unspliced_norm"
      = layers written !! "unspliced_norm" ∧
    layers (adata run.2) !! "spliced_norm"
      = layers written !! "spliced_norm".
Proof.
  intros run Hsp Hret.
  destruct (export_posterior_written _ _ _ _ _ _ _ _ Hsp Hret)
    as (record & rs' & stored & means & _ & _ & Hm & _ & _ & _ & _ & _ & _ &
        _ & _ & Hn0 & Hn1).
  exists means. split; [done|]. cbv zeta. destruct norm.
  - destruct (Hn1 eq_refl w) as (? & ? & ?). by split_and!.
  - destruct (Hn0 eq_refl) as (? & ?). by split_and!.
Qed.

(** X15. Exporting twice is exporting once: when the sampler returns the
    same samples at a second call of [export_posterior] on the store a
    first, returning call has left, with the same arguments and on the same
    day, the second call returns as well and leaves the same data object
    and the same [self.samples]. *)
Theorem export_posterior_idempotent self arg slot fvp norm smp g1 g2
    (w : world G) :
  let run1 := export_posterior sample_posterior self arg slot fvp norm w in
  let run2 := export_posterior sample_posterior self arg slot fvp norm
                run1.2 in
  sample_posterior (kwargs_of arg) (entropy w) = (Some smp, g1) →
  sample_posterior (kwargs_of arg) g1 = (Some smp, g2) →
  returned run1.1 →
  returned run2.1 ∧ adata run2.2 = adata run1.2 ∧
  self_samples run2.2 = self_samples run1.2.
Proof.
  intros run1 run2 Hsp1 Hsp2. subst run2 run1.
  change (run_post (export_posterior sample_posterior self arg slot fvp norm)
            (λ r w1, returned r →
               run_post
                 (export_posterior sample_posterior self arg slot fvp norm)
                 (λ r2 w2, returned r2 ∧ adata w2 = adata w1 ∧
                           self_samples w2 = self_samples w1) w1) w).
  destruct w as [ss ex ad td en tr]. simpl in Hsp1.
  unfold export_posterior at 1.
  repeat run_step.
  all: intros Hret; try done.
  all: clear Hret.
  all: store_facts.
  all: uns_slot_facts.
  all: try (exfalso;
            match goal with
            | H : truthy ?r = _, H' : truthy ?r && _ = _ |- _ =>
                rewrite H in H'; discriminate H'
            end).
  all: unfold export_posterior; repeat run_step.
  all: store_facts.
  all: uns_slot_facts.
  all: cbv beta iota delta [self_samples adata].
  all: (split; [done|]); (split; [|done]).
  all: cbv beta iota delta [set_obs set_var set_uns set_layer
                            obs_names var_names obs var uns layers].
  all: f_equal; same_entries.
Qed.

Lemma velocity_sd_rhs_sqrt smp V :
  velocity_sd_rhs smp = Ok V → ∃ r, V = Nd.sqrt r.
Proof.
  unfold velocity_sd_rhs. intros H.
  repeat match type of H with
         | ebind ?e _ = _ => destruct e; cbn [ebind] in H; [|done]
         end.
  injection H as <-. eauto.
Qed.

(** X16. No entry of the layer [velocity_sd] of a returning export is below
    zero: each is a square root, so zero, positive or NaN. *)
Theorem export_posterior_velocity_sd_not_negative self arg slot fvp norm
    (w : world G) :
  let run := export_posterior sample_posterior self arg slot fvp norm w in
  returned run.1 →
  ∃ Vsd, layers (adata run.2) !! "velocity_sd" = Some Vsd ∧
         Forall (λ y, PrimFloat.ltb y 0 = false) (data Vsd).
Proof.
  intros run Hret.
  destruct (export_posterior_returns sample_posterior _ _ _ _ _ _ Hret)
    as (smp & _ & Vsd & _ & _ & _ & _ & HV & _ & HL).
  exists Vsd. split; [done|].
  destruct (velocity_sd_rhs_sqrt _ _ HV) as (r & ->).
  unfold Nd.sqrt, map1. cbn [data]. apply Forall_fmap, Forall_forall.
  intros x _. apply RootFacts.sqrt_not_negative.
Qed.

End ExportRuns.

(** ** Runs of [plot_QC] *)

Section DiagnosticsRuns.

Context {G : Type}.
Variable random_choice : nat → nat → G → list nat * G.
Variable compute_expected :
  summary → Registry → option (list nat) → option summary.

(** The precondition of [plot_QC]. *)
Lemma plot_QC_precondition self summary_name use_n_obs (w : world G) :
  let run := plot_QC random_choice compute_expected self summary_name
               use_n_obs w in
  (run.1 = Raise (RuntimeError missing_samples_message) ↔
   self_samples w = None) ∧
  (self_samples w = None → run.2 = w).
Proof.
  change (run_post (plot_QC random_choice compute_expected self summary_name
                      use_n_obs)
            (λ r w', (r = Raise (RuntimeError missing_samples_message) ↔
                      self_samples w = None) ∧
                     (self_samples w = None → w' = w)) w).
  destruct w as [ss ex ad td en tr]. unfold plot_QC.
  repeat run_step.
  all: cbv beta iota delta [self_samples].
  all: raise_kind.
  all: by split; [split|].
Qed.

(** X17. When [self.samples] is not bound, [plot_QC] raises the
    [RuntimeError] that asks for [export_posterior], and before anything
    else: no index is drawn, the forward map is not called, nothing is
    plotted and the store is as it was. When [self.samples] is bound to a
    samples dictionary, [plot_QC] does not raise that error. *)
Theorem plot_QC_missing_samples self summary_name use_n_obs (w : world G) :
  let run := plot_QC random_choice compute_expected self summary_name
               use_n_obs w in
  (self_samples w = None →
   run = (Raise (RuntimeError missing_samples_message), w)) ∧
  (∀ smp : samples_dict, self_samples w = Some smp →
   run.1 ≠ Raise (RuntimeError missing_samples_message)).
Proof.
  intros run.
  destruct (plot_QC_precondition self summary_name use_n_obs w) as [Hiff Hw].
  fold run in Hiff, Hw. split.
  - intros Hs. rewrite (surjective_pairing run). f_equal.
    + by apply Hiff.
    + by apply Hw.
  - intros smp Hs Hr. apply Hiff in Hr. congruence.
Qed.

(** X18. Whatever its outcome, [plot_QC] leaves [self.samples] and the data
    object as they were, and rebinds [self.expected_nb_param] only to the
    result of a call of the forward map that returned. *)
Theorem plot_QC_frame self summary_name use_n_obs (w : world G) :
  let run := plot_QC random_choice compute_expected self summary_name
               use_n_obs w in
  self_samples run.2 = self_samples w ∧ adata run.2 = adata w ∧
  (self_expected_nb_param run.2 = self_expected_nb_param w ∨
   ∃ s ind, ComputeExpected s ind ∈ trace run.2 ∧
     self_expected_nb_param run.2 =
       compute_expected s (adata_manager self) ind).
Proof.
  change (run_post (plot_QC random_choice compute_expected self summary_name
                      use_n_obs)
            (λ r w', self_samples w' = self_samples w ∧ adata w' = adata w ∧
               (self_expected_nb_param w' = self_expected_nb_param w ∨
                ∃ s ind, ComputeExpected s ind ∈ trace w' ∧
                  self_expected_nb_param w' =
                    compute_expected s (adata_manager self) ind)) w).
  destruct w as [ss ex ad td en tr]. unfold plot_QC.
  repeat run_step.
  all: cbv beta iota delta [self_samples adata self_expected_nb_param trace].
  all: split; [done|]; split; [done|].
  all: try (by left).
  all: right; eexists _, _; split; [|by symmetry].
  all: rewrite !elem_of_app, !list_elem_of_singleton; auto 10.
Qed.

(** X19. With samples bound and a negative [use_n_obs] in the range of a
    signed 64-bit integer, [plot_QC] raises [ValueError]: the minimum of
    [use_n_obs] and the number of cells is the negative size, which the draw
    rejects. Only the request of the draw has happened by then. *)
Theorem plot_QC_negative_size self summary_name n smp (w : world G) :
  let run := plot_QC random_choice compute_expected self summary_name
               (Some n) w in
  self_samples w = Some smp → (- 2 ^ 63 ≤ n)%Z → (n < 0)%Z →
  run.1 = Raise ValueError ∧
  run.2 = with_event (RandomChoice (n_obs (self_adata self)) n) w.
Proof.
  intros run Hs _ Hn. subst run.
  change (run_post (plot_QC random_choice compute_expected self summary_name
                      (Some n))
            (λ r w',
               r = Raise ValueError ∧
               w' = with_event (RandomChoice (n_obs (self_adata self)) n) w)
            w).
  destruct w as [ss ex ad td en tr]. simpl in Hs. subst ss.
  unfold plot_QC.
  repeat run_step.
  all: store_facts.
  all: cbv beta iota delta [self_samples with_event trace adata entropy
                            self_expected_nb_param today].
  all: try lia.
  all: split; [done|]; by rewrite Z.min_l by lia.
Qed.

(** X20. With samples bound that have no summary of the given name, and
    [use_n_obs] either [None] or an integer that is not negative and in the
    range of a signed 64-bit integer, [plot_QC] raises [KeyError] for the
    key ["post_sample_" + summary_name] after the draw of the indices, when
    one is asked for, and before the forward map is called:
    [self.expected_nb_param] is as it was. *)
Theorem plot_QC_unknown_summary self summary_name use_n_obs smp
    (w : world G) :
  let run := plot_QC random_choice compute_expected self summary_name
               use_n_obs w in
  self_samples w = Some smp →
  smp !! ("post_sample_" +:+ summary_name) = None →
  (∀ n, use_n_obs = Some n → (0 ≤ n < 2 ^ 63)%Z) →
  run.1 = Raise (KeyError ("post_sample_" +:+ summary_name)) ∧
  self_expected_nb_param run.2 = self_expected_nb_param w ∧
  trace run.2 =
    trace w ++
    match use_n_obs with
    | Some n =>
        [RandomChoice (n_obs (self_adata self))
           (Z.min n (Z.of_nat (n_obs (self_adata self))))]
    | None => []
    end.
Proof.
  intros run Hs Hk Hn. subst run.
  change (run_post (plot_QC random_choice compute_expected self summary_name
                      use_n_obs)
            (λ r w',
               r = Raise (KeyError ("post_sample_" +:+ summary_name)) ∧
               self_expected_nb_param w' = self_expected_nb_param w ∧
               trace w' =
                 trace w ++
                 match use_n_obs with
                 | Some n =>
                     [RandomChoice (n_obs (self_adata self))
                        (Z.min n (Z.of_nat (n_obs (self_adata self))))]
                 | None => []
                 end) w).
  apply ErrorFacts.getitem_missing in Hk.
  destruct w as [ss ex ad td en tr]. simpl in Hs. subst ss.
  unfold plot_QC.
  repeat run_step.
  all: store_facts.
  all: cbv beta iota delta [self_samples with_event trace adata entropy
                            self_expected_nb_param today].
  all: try (specialize (Hn _ eq_refl); lia).
  all: try done.
  all: by rewrite ?app_nil_r.
Qed.

(** X21. With samples bound and [use_n_obs = n >= 0], a returning [plot_QC]
    has asked for [min(n, n_obs)] indices out of [n_obs] in one draw, called
    the forward map once with the indices drawn, bound
    [self.expected_nb_param] to its result, and compared the two components
    of the expected counts with the rows of the unspliced and of the spliced
    counts at the same indices, in the order drawn: [min(n, n_obs)] rows
    each. *)
Theorem plot_QC_subsample self summary_name n smp n_genes (w : world G) :
  let run := plot_QC random_choice compute_expected self summary_name
               (Some n) w in
  let cells := n_obs (self_adata self) in
  let size := Z.to_nat (Z.min n (Z.of_nat cells)) in
  let ind := (random_choice cells size (entropy w)).1 in
  self_samples w = Some smp → (0 ≤ n)%Z →
  shape (unspliced (adata_manager self)) = [cells; n_genes] →
  shape (spliced (adata_manager self)) = [cells; n_genes] →
  length ind = size →
  returned run.1 →
  size = Z.to_nat n `min` cells ∧
  ∃ s p mu mu0 mu1 U S,
    smp !! ("post_sample_" +:+ summary_name) = Some s ∧
    compute_expected s (adata_manager self) (Some ind) = Some p ∧
    self_expected_nb_param run.2 = Some p ∧
    p !! "mu" = Some mu ∧
    index_third 0 mu = Ok mu0 ∧ index_third 1 mu = Ok mu1 ∧
    trace run.2 =
      trace w ++
      [RandomChoice cells (Z.min n (Z.of_nat cells));
       ComputeExpected s (Some ind);
       PlotMuVsData mu0 U; Title "Reconstruction Accuracy (unspliced)";
       PlotMuVsData mu1 S; Title "Reconstruction Accuracy (spliced)"] ∧
    shape U = [size; n_genes] ∧ shape S = [size; n_genes] ∧
    ∀ i r g, ind !! i = Some r → g < n_genes →
      get U [i; g] = get (unspliced (adata_manager self)) [r; g] ∧
      get S [i; g] = get (spliced (adata_manager self)) [r; g].
Proof.
  intros run cells size ind Hs Hn Su Ss Hlen. subst run.
  intros Hret. split; [subst size; lia|]. revert Hret.
  change (run_post (plot_QC random_choice compute_expected self summary_name
                      (Some n))
            (λ r w', returned r → ∃ s p mu mu0 mu1 U S,
               smp !! ("post_sample_" +:+ summary_name) = Some s ∧
               compute_expected s (adata_manager self) (Some ind) = Some p ∧
               self_expected_nb_param w' = Some p ∧
               p !! "mu" = Some mu ∧
               index_third 0 mu = Ok mu0 ∧ index_third 1 mu = Ok mu1 ∧
               trace w' =
                 trace w ++
                 [RandomChoice cells (Z.min n (Z.of_nat cells));
                  ComputeExpected s (Some ind);
                  PlotMuVsData mu0 U;
                  Title "Reconstruction Accuracy (unspliced)";
                  PlotMuVsData mu1 S;
                  Title "Reconstruction Accuracy (spliced)"] ∧
               shape U = [size; n_genes] ∧ shape S = [size; n_genes] ∧
               ∀ i r g, ind !! i = Some r → g < n_genes →
                 get U [i; g] = get (unspliced (adata_manager self)) [r; g] ∧
                 get S [i; g] = get (spliced (adata_manager self)) [r; g]) w).
  destruct w as [ss ex ad td en tr]. simpl in Hs. subst ss.
  simpl in ind. unfold plot_QC.
  repeat run_step.
  all: intros Hret; try done.
  all: store_facts.
  all: cbv beta iota delta [self_samples with_event trace adata entropy
                            self_expected_nb_param today].
  match goal with
  | Hu : index_rows _ (unspliced _) = Ok ?U,
    Hs : index_rows _ (spliced _) = Ok ?S |- _ =>
      destruct (ErrorFacts.index_rows_some _ _ _ _ _ Su Hu) as (SU & _ & EU);
      destruct (ErrorFacts.index_rows_some _ _ _ _ _ Ss Hs) as (SS & _ & ES)
  end.
  eexists _, _, _, _, _, _, _. split_and!;
    try (by apply ErrorFacts.getitem_ok); try eassumption.
  - done.
  - by rewrite <- !app_assoc.
  - by rewrite SU, <- Hlen.
  - by rewrite SS, <- Hlen.
  - intros i r j Hi Hj. split; [by apply EU|by apply ES].
Qed.

(** X22. With samples bound and [use_n_obs = None], a returning [plot_QC]
    draws nothing, so that the random state is as it was, and calls the
    forward map with [ind_x = None]; the dense counts it indexes with
    [[None, :]] are passed to the comparison whole, under a new leading axis
    of length one. *)
Theorem plot_QC_all_cells self summary_name smp (w : world G) :
  let run := plot_QC random_choice compute_expected self summary_name
               None w in
  let u := unspliced (adata_manager self) in
  let s := spliced (adata_manager self) in
  self_samples w = Some smp →
  returned run.1 →
  entropy run.2 = entropy w ∧
  ∃ sm p mu mu0 mu1,
    smp !! ("post_sample_" +:+ summary_name) = Some sm ∧
    compute_expected sm (adata_manager self) None = Some p ∧
    self_expected_nb_param run.2 = Some p ∧
    p !! "mu" = Some mu ∧
    index_third 0 mu = Ok mu0 ∧ index_third 1 mu = Ok mu1 ∧
    trace run.2 =
      trace w ++
      [ComputeExpected sm None;
       PlotMuVsData mu0 (NdArray (1 :: shape u) (data u));
       Title "Reconstruction Accuracy (unspliced)";
       PlotMuVsData mu1 (NdArray (1 :: shape s) (data s));
       Title "Reconstruction Accuracy (spliced)"].
Proof.
  intros run u s Hs. subst run.
  change (run_post (plot_QC random_choice compute_expected self summary_name
                      None)
            (λ r w', returned r →
               entropy w' = entropy w ∧
               ∃ sm p mu mu0 mu1,
                 smp !! ("post_sample_" +:+ summary_name) = Some sm ∧
                 compute_expected sm (adata_manager self) None = Some p ∧
                 self_expected_nb_param w' = Some p ∧
                 p !! "mu" = Some mu ∧
                 index_third 0 mu = Ok mu0 ∧ index_third 1 mu = Ok mu1 ∧
                 trace w' =
                   trace w ++
                   [ComputeExpected sm None;
                    PlotMuVsData mu0 (NdArray (1 :: shape u) (data u));
                    Title "Reconstruction Accuracy (unspliced)";
                    PlotMuVsData mu1 (NdArray (1 :: shape s) (data s));
                    Title "Reconstruction Accuracy (spliced)"]) w).
  destruct w as [ss ex ad td en tr]. simpl in Hs. subst ss.
  unfold plot_QC.
  repeat run_step.
  all: intros Hret; try done.
  all: store_facts.
  all: cbv beta iota delta [self_samples with_event trace adata entropy
                            self_expected_nb_param today].
  repeat match goal with
         | H : index_rows None _ = Ok _ |- _ =>
             apply ErrorFacts.index_rows_none in H; subst
         end.
  split; [done|].
  eexists _, _, _, _, _. split_and!;
    try (by apply ErrorFacts.getitem_ok); try eassumption.
  - done.
  - by rewrite <- !app_assoc.
Qed.

(** X23. Once the sampler has returned in a call of [export_posterior],
    returning or not, a later [plot_QC] on the store it leaves does not
    raise the [RuntimeError] for missing samples. *)
Theorem plot_QC_after_export sample_posterior self arg slot fvp norm
    self' summary_name use_n_obs (w : world G) :
  let run := export_posterior sample_posterior self arg slot fvp norm w in
  is_Some (sample_posterior (kwargs_of arg) (entropy w)).1 →
  (plot_QC random_choice compute_expected self' summary_name use_n_obs
     run.2).1 ≠ Raise (RuntimeError missing_samples_message).
Proof.
  intros run [smp Hsmp] Hraise.
  destruct (export_posterior_outcome sample_posterior self arg slot fvp norm w)
    as ((_ & Hs) & _).
  rewrite Hsmp in Hs. fold run in Hs.
  apply (plot_QC_precondition self' summary_name use_n_obs run.2) in Hraise.
  congruence.
Qed.

End DiagnosticsRuns.

(** ** Concrete runs *)

Import Scenarios.

(** The record of the example of one cell and two genes. *)
Lemma export2adata_record_example :
  ∃ record,
    _export2adata model_flat posterior_flat store_flat
      = (Ok record, store_flat) ∧
    dom record = list_to_set record_keys ∧
    record !! "model_name" = Some (RStr "Cell2FateBaseModule") ∧
    record !! "date" = Some (RStr "2024-05-01") ∧
    record !! "var_names" = Some (RNames ["gene0"; "gene1"]) ∧
    record !! "obs_names" = Some (RNames ["cell0"]) ∧
    record !! "post_sample_stds" = Some (RSummary stds_flat).
Proof.
  destruct (export2adata_record model_flat posterior_flat means_flat stds_flat
              means_flat means_flat store_flat)
    as (record & H1 & H2 & H3 & H4 & (genes & H5 & -> & _) &
        (cells & H6 & -> & _) & _ & H7 & _).
  - reflexivity.
  - reflexivity.
  - reflexivity.
  - reflexivity.
  - exists record. split; [exact H1|]. split; [exact H2|].
    split; [exact H3|]. split; [exact H4|]. split; [exact H5|].
    split; [exact H6|exact H7].
Defined.


(** Posterior means without ["detection_y_cs"]: the unspliced layer is
    written, then the call fails. *)
Lemma normalize_partial_write_example :
  normalize means_unspliced_only (adata_manager model) store0 =
    (Raise (KeyError "detection_y_cs"),
     with_adata (set_layer "unspliced_norm" (NdArray [1; 1] [0%float]))
                store0).
Proof.
  apply (normalize_partial_write means_unspliced_only (adata_manager model)
           (NdArray [1; 1] [2.5%float]) (NdArray [1; 1] [0%float]) store0).
  - reflexivity.
  - reflexivity.
  - reflexivity.
Defined.

(** No cell at all. *)
Lemma normalize_no_cells_example :
  normalize means_empty (adata_manager model_empty) store0 =
    (Raise ValueError, store0).
Proof.
  apply (normalize_no_cells 1 2 means_empty (adata_manager model_empty)
           (cell_param 2) (NdArray [0; 1; 2] []) store0).
  - reflexivity.
  - reflexivity.
  - reflexivity.
  - exists 1, 1, 1. simpl. auto.
  - reflexivity.
  - reflexivity.
  - lia.
Defined.

(** [export_posterior(adata)] with the default [sample_kwargs]. *)
Lemma export_posterior_default_arguments :
  let run := export_posterior (sampler posterior) model ArgNone "mod"
               false true store0 in
  run.1 = Raise (KeyError "return_samples") ∧
  self_samples run.2 = Some posterior ∧
  ∃ record, (_export2adata model posterior store0).1 = Ok record ∧
    adata run.2 = set_uns "mod" (UDict record) (adata store0).
Proof.
  apply (export_posterior_missing_return_samples (sampler posterior) model
           ArgNone "mod" false true posterior tt means stds means means
           store0).
  - reflexivity.
  - reflexivity.
  - reflexivity.
  - reflexivity.
  - reflexivity.
  - reflexivity.
Defined.

(** Summaries only, with [full_velocity_posterior] set. *)
Lemma export_posterior_summaries_only_example :
  let run := export_posterior (sampler posterior) model summaries_only "mod"
               true false store0 in
  ∃ record,
    (_export2adata model posterior store0).1 = Ok record ∧
    uns (adata run.2) = <["mod" := UDict record]> (uns (adata store0)) ∧
    trace run.2 = [SamplePosterior (kwargs_of summaries_only)].
Proof.
  apply (export_posterior_summaries_only (sampler posterior) model
           summaries_only "mod" true false posterior tt (KBool false) store0).
  - reflexivity.
  - reflexivity.
  - reflexivity.
  - vm_compute. exact I.
Defined.

(** All samples, with [full_velocity_posterior] set: two draws, of
    [beta_g] 2 and 4, for one cell and one gene give the velocities
    [2 * 3 - 1 * 1] and [4 * 3 - 1 * 1]. *)
Lemma export_posterior_all_samples_example :
  let run := export_posterior (sampler posterior_all) model all_samples "mod"
               true false store0 in
  ∃ record vp,
    (_export2adata model posterior_all store0).1 = Ok record ∧
    uns (adata run.2) =
      <["velocity_posterior" := UArray vp]>
        (<["mod" := UDict (<["post_samples" := RSummary draws]> record)]>
           (uns (adata store0))) ∧
    shape vp = [2; 1; 1] ∧
    get vp [0; 0; 0] = 5%float ∧ get vp [1; 0; 0] = 11%float ∧
    uns (adata run.2) !! "velocity_posterior"
      = Some (UArray (NdArray [2; 1; 1] [5; 11]%float)) ∧
    trace run.2 =
      [SamplePosterior (kwargs_of all_samples); Print WarnSavingAllSamples;
       Print WarnSavingVelocityPosterior].
Proof.
  intros run.
  destruct (export_posterior_all_samples (sampler posterior_all) model
              all_samples "mod" true false posterior_all tt (KBool true)
              store0)
    as (record & ps & Hrec & Hps & (vp & Huns & Hvp) & Htr).
  - reflexivity.
  - reflexivity.
  - reflexivity.
  - vm_compute. exact I.
  - assert (ps = draws) as -> by (injection Hps as <-; reflexivity).
    destruct (Hvp (NdArray [2; 1; 1; 1] [2; 4]%float)
                  (NdArray [2; 1; 1; 1] [1; 1]%float)
                  (NdArray [2; 1; 1; 2] [3; 1; 3; 1]%float) 2 1 1 2 1 1)
      as (Svp & Evp).
    + reflexivity.
    + reflexivity.
    + reflexivity.
    + reflexivity.
    + lia.
    + reflexivity.
    + lia.
    + reflexivity.
    + lia.
    + exists record, vp. split; [exact Hrec|]. split; [exact Huns|].
      split; [exact Svp|].
      split; [rewrite (Evp 0 0 0) by lia; reflexivity|].
      split; [rewrite (Evp 1 0 0) by lia; reflexivity|].
      split; [vm_compute; reflexivity|exact Htr].
Defined.

(** The columns of the example of one cell and two genes: the efficiency
    of shape one by one by one is written as a column of one entry. *)
Lemma export_posterior_columns_example :
  let run := export_posterior (sampler posterior_flat) model_flat
               summaries_only "mod" false false store_flat in
  Forall (column_of posterior_flat (obs (adata run.2))) obs_columns ∧
  Forall (column_of posterior_flat (var (adata run.2))) var_columns ∧
  means_flat !! "detection_y_cu" = Some (NdArray [1; 1; 1] [2%float]) ∧
  obs (adata run.2) !! "normalization_factor_unspliced_mean"
    = Some (NdArray [1] [2%float]) ∧
  obs (adata run.2) !! "latent_time_sd" = Some (NdArray [1] [0.25%float]) ∧
  var (adata run.2) !! "splicing_rate_mean"
    = Some (NdArray [2] [2; 7]%float) ∧
  var (adata run.2) !! "degredation_rate_sd"
    = Some (NdArray [2] [1.25; 6]%float).
Proof.
  intros run.
  destruct (export_posterior_columns (sampler posterior_flat) model_flat
              summaries_only "mod" false false posterior_flat tt store_flat)
    as [Hobs Hvar].
  - reflexivity.
  - vm_compute. exact I.
  - split; [exact Hobs|]. split; [exact Hvar|]. split; [reflexivity|].
    pose proof (proj1 (Forall_forall _ _) Hobs) as Ho.
    pose proof (proj1 (Forall_forall _ _) Hvar) as Hv.
    split_and!.
    + destruct (Ho ("normalization_factor_unspliced_mean",
                    ("post_sample_means", "detection_y_cu")))
        as (a & Ha & Hcol); [set_solver|].
      injection Ha as <-. exact Hcol.
    + destruct (Ho ("latent_time_sd", ("post_sample_stds", "T_c")))
        as (a & Ha & Hcol); [set_solver|].
      injection Ha as <-. exact Hcol.
    + destruct (Hv ("splicing_rate_mean", ("post_sample_means", "beta_g")))
        as (a & Ha & Hcol); [set_solver|].
      injection Ha as <-. exact Hcol.
    + destruct (Hv ("degredation_rate_sd", ("post_sample_stds", "gamma_g")))
        as (a & Ha & Hcol); [set_solver|].
      injection Ha as <-. exact Hcol.
Defined.

(** The normalised layers of the one-cell example. *)
Lemma export_posterior_normalized_layers_example :
  let run := export_posterior (sampler posterior) model summaries_only "mod"
               false true store0 in
  let norm_run := normalize means (adata_manager model) store0 in
  layers (adata run.2) !! "unspliced_norm"
    = layers (adata norm_run.2) !! "unspliced_norm" ∧
  layers (adata run.2) !! "spliced_norm"
    = layers (adata norm_run.2) !! "spliced_norm".
Proof.
  intros run norm_run.
  destruct (export_posterior_normalized_layers (sampler posterior) model
              summaries_only "mod" false true posterior tt store0)
    as (m & Hm & _ & HU & HS).
  - reflexivity.
  - vm_compute. exact I.
  - assert (m = means) as -> by (injection Hm as <-; reflexivity).
    split; [exact HU|exact HS].
Defined.

(** The one-cell example exported twice. *)
Lemma export_posterior_twice :
  let run1 := export_posterior (sampler posterior) model summaries_only "mod"
                false true store0 in
  let run2 := export_posterior (sampler posterior) model summaries_only "mod"
                false true run1.2 in
  returned run2.1 ∧ adata run2.2 = adata run1.2 ∧
  self_samples run2.2 = self_samples run1.2.
Proof.
  apply (export_posterior_idempotent (sampler posterior) model summaries_only
           "mod" false true posterior tt tt store0).
  - reflexivity.
  - reflexivity.
  - vm_compute. exact I.
Defined.

(** The uncertainty of the one-cell example. *)
Lemma export_posterior_velocity_sd_sign :
  let run := export_posterior (sampler posterior) model summaries_only "mod"
               false true store0 in
  ∃ Vsd, layers (adata run.2) !! "velocity_sd" = Some Vsd ∧
         Forall (λ y, PrimFloat.ltb y 0 = false) (data Vsd).
Proof.
  apply (export_posterior_velocity_sd_not_negative (sampler posterior) model
           summaries_only "mod" false true store0).
  vm_compute. exact I.
Defined.

(** [plot_QC(use_n_obs=-1)]. *)
Lemma plot_QC_negative_size_example :
  let run := plot_QC first_indices (expected_of mu2) model2 "means"
               (Some (-1)%Z) store1 in
  run.1 = Raise ValueError ∧
  run.2 = with_event (RandomChoice 2 (-1)) store1.
Proof.
  apply (plot_QC_negative_size first_indices (expected_of mu2) model2 "means"
           (-1)%Z posterior store1).
  - reflexivity.
  - lia.
  - lia.
Defined.

(** [plot_QC(summary_name="mean")]. *)
Lemma plot_QC_unknown_summary_example :
  let run := plot_QC first_indices (expected_of mu2) model2 "mean"
               (Some 1000%Z) store1 in
  run.1 = Raise (KeyError "post_sample_mean") ∧
  self_expected_nb_param run.2 = None ∧
  trace run.2 = [RandomChoice 2 2].
Proof.
  apply (plot_QC_unknown_summary first_indices (expected_of mu2) model2 "mean"
           (Some 1000%Z) posterior store1).
  - reflexivity.
  - reflexivity.
  - intros n [= <-]. lia.
Defined.

(** The diagnostics scenario of the specification: [use_n_obs=1000] on five
    hundred cells uses the five hundred cells. *)
Lemma plot_QC_five_hundred_cells :
  let run := plot_QC first_indices (expected_of mu500) model500 "means"
               (Some 1000%Z) store1 in
  ∃ s mu0 mu1 U S,
    trace run.2 =
      [RandomChoice 500 500; ComputeExpected s (Some (seq 0 500));
       PlotMuVsData mu0 U; Title "Reconstruction Accuracy (unspliced)";
       PlotMuVsData mu1 S; Title "Reconstruction Accuracy (spliced)"] ∧
    shape U = [500; 1] ∧ shape S = [500; 1].
Proof.
  intros run.
  destruct (plot_QC_subsample first_indices (expected_of mu500) model500
              "means" 1000%Z posterior 1 store1)
    as (_ & s & p & mu & mu0 & mu1 & U & S & _ & _ & _ & _ & _ & _ & Htr &
        SU & SS & _).
  - reflexivity.
  - lia.
  - reflexivity.
  - reflexivity.
  - vm_compute. reflexivity.
  - vm_compute. exact I.
  - exists s, mu0, mu1, U, S. split; [exact Htr|]. split; [exact SU|exact SS].
Defined.

(** [plot_QC(use_n_obs=None)] on two cells and one gene. *)
Lemma plot_QC_all_cells_example :
  let run := plot_QC first_indices (expected_of mu2) model2 "means"
               None store1 in
  ∃ sm mu0 mu1,
    trace run.2 =
      [ComputeExpected sm None;
       PlotMuVsData mu0 (NdArray [1; 2; 1] [6; 8]%float);
       Title "Reconstruction Accuracy (unspliced)";
       PlotMuVsData mu1 (NdArray [1; 2; 1] [6; 8]%float);
       Title "Reconstruction Accuracy (spliced)"].
Proof.
  intros run.
  destruct (plot_QC_all_cells first_indices (expected_of mu2) model2 "means"
              posterior store1)
    as (_ & sm & p & mu & mu0 & mu1 & _ & _ & _ & _ & _ & _ & Htr).
  - reflexivity.
  - vm_compute. exact I.
  - exists sm, mu0, mu1. exact Htr.
Defined.

(** A failed export with the default arguments, then the diagnostics. *)
Lemma plot_QC_after_default_export :
  let run := export_posterior (sampler posterior) model ArgNone "mod"
               false true store0 in
  ∃ r, (plot_QC first_indices (expected_of mu2) model2 "means" None
          run.2).1 = r ∧
       r ≠ Raise (RuntimeError missing_samples_message).
Proof.
  intros run. eexists. split; [reflexivity|].
  apply (plot_QC_after_export first_indices (expected_of mu2)
           (sampler posterior) model ArgNone "mod" false true model2 "means"
           None store0).
  eexists. reflexivity.
Defined.
